(** * mxdev: the requirements/constraints resolution pipeline and the writer

    A shallow embedding of [src/mxdev/processing.py].

    Conventions of the embedding.
    - A Python [str] is a [string]; every character stands for the code point
      with the same number (0..255).  A [bytes] object is a [string] of octets.
    - The interpreter's world (the file system, the remote documents and the
      calls received by the module's [logger]) is threaded explicitly through
      a state-and-exception monad [M].
    - Library functions that are not part of the repository
      ([pkg_resources.Requirement.parse], [urllib.parse.urlparse] and the
      UTF-8 codec) are variables of the section that holds the pipeline.
    - [fetch] only hands the packages over to [WorkingCopies], whose module
      is not among the sources; the working copies are described in [Vcs],
      after the specification. *)

From Stdlib Require Import String Ascii List Bool Arith Lia.
From stdpp Require Import base option list strings gmap.

Import ListNotations.
Local Open Scope string_scope.
Local Open Scope list_scope.

(** ** Python string primitives *)

Module Py.

(** [str.isspace] on one character, for the code points below 256:
    TAB, LF, VT, FF, CR, FS, GS, RS, US, SPACE, NEL and NBSP. *)
Definition isspace (c : ascii) : bool :=
  let n := nat_of_ascii c in
  (Nat.leb 9 n && Nat.leb n 13) || (Nat.leb 28 n && Nat.leb n 32)
  || Nat.eqb n 133 || Nat.eqb n 160.

Fixpoint lstrip (s : string) : string :=
  match s with
  | EmptyString => EmptyString
  | String c s' => if isspace c then lstrip s' else s
  end.

Fixpoint rstrip (s : string) : string :=
  match s with
  | EmptyString => EmptyString
  | String c s' =>
      match rstrip s' with
      | EmptyString => if isspace c then EmptyString else String c EmptyString
      | r => String c r
      end
  end.

(** [s.strip()] *)
Definition strip (s : string) : string := lstrip (rstrip s).

(** [s.startswith(p)] *)
Fixpoint startswith (s p : string) {struct p} : bool :=
  match p, s with
  | EmptyString, _ => true
  | String _ _, EmptyString => false
  | String a p', String b s' => Ascii.eqb a b && startswith s' p'
  end.

(** [s.replace(a, b)] for one-character [a] and [b]. *)
Fixpoint replace (a b : ascii) (s : string) : string :=
  match s with
  | EmptyString => EmptyString
  | String c s' => String (if Ascii.eqb c a then b else c) (replace a b s')
  end.

(** [s.split(sep)] for a one-character [sep]: never empty, and consecutive
    separators delimit empty fields. *)
Fixpoint split (sep : ascii) (s : string) : list string :=
  match s with
  | EmptyString => [EmptyString]
  | String c s' =>
      if Ascii.eqb c sep then EmptyString :: split sep s'
      else match split sep s' with
           | [] => [String c EmptyString]
           | f :: fs => String c f :: fs
           end
  end.

(** [s * n] *)
Fixpoint mul (s : string) (n : nat) : string :=
  match n with
  | O => EmptyString
  | S n' => s +:+ mul s n'
  end.

(** The truth value of a list: whether it has an item. *)
Definition nonempty {A} (l : list A) : bool :=
  match l with
  | [] => false
  | _ :: _ => true
  end.

(** [k in l] for a list of strings. *)
Definition elem (k : string) (l : list string) : bool :=
  existsb (String.eqb k) l.

(** [fio.writelines(l)] appends the items one after the other; the text it
    adds is their concatenation. *)
Fixpoint join (l : list string) : string :=
  match l with
  | [] => EmptyString
  | x :: l' => x +:+ join l'
  end.

End Py.

(** ** [autocorrect_pip_url] *)

Definition autocorrect_pip_url (pip_url : string) : string :=
  if Py.startswith pip_url "git@" then
    "git+ssh://" +:+ Py.replace ":" "/" pip_url
  else if Py.startswith pip_url "ssh://" then
    "git+" +:+ pip_url
  else if Py.startswith pip_url "https://" then
    "git+" +:+ pip_url
  else pip_url.

(** ** The world and the monad of effects *)

Definition LF : ascii := "010"%char.
Definition CR : ascii := "013"%char.
Definition DQUOTE : ascii := "034"%char.
(** The one-character string holding a line feed. *)
Definition nl : string := String LF EmptyString.

(** Methods of the [logging.Logger] interface; the world records the calls the
    module's [logger] receives, in order, as [unittest.mock] would. *)
Inductive logger_method := debug | info | warning | error | critical.

(** What a path names: a directory, a regular file with its (decoded) text,
    or something the system refuses to examine: [os.stat] fails on it with an
    error that [Path.exists] does not take for an absence (a name that is too
    long, a directory on the way that may not be searched).  A path that
    names nothing is absent from the map: for it [os.stat] fails with one of
    the errors that [Path.exists] ignores. *)
Inductive node :=
  | Dir
  | File (text : string)
  | Unexaminable.

Record world := World {
  files : gmap string node;      (* the local file system, by path *)
  net : gmap string string;      (* remote documents, by URL: response body *)
  log : list (logger_method * string)
}.

Inductive exn :=
  | IndexError
  | UnicodeDecodeError
  | ValueError
  | FileNotFoundError
  | IsADirectoryError
  | OSError
  | URLError
  | RecursionError.

Inductive result (A : Type) :=
  | Ok (a : A)
  | Raise (e : exn).
Arguments Ok {A} a.
Arguments Raise {A} e.

Definition M (A : Type) : Type := world -> result A * world.

Definition ret {A} (a : A) : M A := fun w => (Ok a, w).

Definition raise {A} (e : exn) : M A := fun w => (Raise e, w).

Definition bind {A B} (m : M A) (k : A -> M B) : M B :=
  fun w =>
    match m w with
    | (Ok a, w') => k a w'
    | (Raise e, w') => (Raise e, w')
    end.

#[global] Instance M_ret : MRet M := @ret.
#[global] Instance M_bind : MBind M := fun A B k m => bind m k.

(** [logger.<method>(msg)] *)
Definition logger_call (m : logger_method) (msg : string) : M unit :=
  fun w => (Ok tt, World (files w) (net w) (log w ++ [(m, msg)])).

(** A line handed out by a file object: [str] from a file opened in text
    mode, [bytes] from an HTTP response. *)
Inductive line :=
  | Str (s : string)
  | Bytes (b : string).

(** The lines produced by iterating over a stream: each one ends after its
    line feed, the last one possibly without. *)
Fixpoint iter_lines (s : string) : list string :=
  match s with
  | EmptyString => []
  | String c s' =>
      if Ascii.eqb c LF then nl :: iter_lines s'
      else match iter_lines s' with
           | [] => [String c EmptyString]
           | l :: ls => String c l :: ls
           end
  end.

(** Text mode reads with universal newlines: CR LF and a lone CR both arrive
    as LF. *)
Fixpoint universal_newlines (s : string) : string :=
  match s with
  | EmptyString => EmptyString
  | String c s' =>
      if Ascii.eqb c CR then
        String LF
          match s' with
          | String c' s'' =>
              if Ascii.eqb c' LF then universal_newlines s''
              else universal_newlines s'
          | EmptyString => EmptyString
          end
      else String c (universal_newlines s')
  end.

(** [Path(p).exists()]: [os.stat] is tried; an error that says that the path
    names nothing gives [False], any other [OSError] is raised again. *)
Definition path_exists (p : string) : M bool :=
  fun w =>
    match files w !! p with
    | Some Unexaminable => (Raise OSError, w)
    | Some _ => (Ok true, w)
    | None => (Ok false, w)
    end.

(** [Path(p).open("r")], as the lines its iteration yields. *)
Definition path_open_r (p : string) : M (list line) :=
  fun w =>
    match files w !! p with
    | Some (File text) => (Ok (map Str (iter_lines (universal_newlines text))), w)
    | Some Dir => (Raise IsADirectoryError, w)
    | Some Unexaminable => (Raise OSError, w)
    | None => (Raise FileNotFoundError, w)
    end.

(** [request.urlopen(url)], as the lines its iteration yields. *)
Definition urlopen (url : string) : M (list line) :=
  fun w =>
    match net w !! url with
    | Some body => (Ok (map Bytes (iter_lines body)), w)
    | None => (Raise URLError, w)
    end.

(** [with open(p, "w") as fio: body]: the file is truncated when it is
    opened and holds what [body] wrote when the block is left.  A file object
    open for writing is the text written to it so far.  Of the ways in which
    [open] can fail the world has one, the path that is a directory; a run
    that returns here stands for a run in which [open] went through. *)
Definition with_open_w (p : string) (body : string -> M string) : M unit :=
  fun w =>
    match files w !! p with
    | Some Dir => (Raise IsADirectoryError, w)
    | _ =>
        match body EmptyString
                (World (<[p := File EmptyString]> (files w)) (net w) (log w)) with
        | (Ok text, w') =>
            (Ok tt, World (<[p := File text]> (files w')) (net w') (log w'))
        | (Raise e, w') => (Raise e, w')
        end
    end.

(** [fio.write(s)] *)
Definition fio_write (fio : string) (s : string) : string := fio +:+ s.

(** [fio.writelines(l)] *)
Definition fio_writelines (fio : string) (l : list string) : string :=
  fold_left fio_write l fio.

(** ** Configuration and state

    The classes live in [mxdev/state.py] and [mxdev/config.py]; the records
    carry the attributes [processing.py] reads.  A Python [dict] is a list of
    items in insertion order. *)

(** One entry of [Configuration.packages], with the keys [write_dev_sources]
    subscripts ([install-mode], [extras], [subdirectory], [target]). *)
Record package := Package {
  install_mode : string;
  extras : string;
  subdirectory : string;
  target : string
}.

Record Configuration := {
  infile : string;
  package_keys : list string;
  override_keys : list string;
  ignore_keys : list string;
  overrides : list (string * string);
  packages : list (string * package);
  out_requirements : string;
  out_constraints : string
}.

Record State := {
  configuration : Configuration;
  requirements : list string;
  constraints : list string
}.

(** ** The writer *)

(** Python truthiness of a [str]. *)
Definition truthy (s : string) : bool := negb (String.eqb s EmptyString).

Definition write_dev_sources (fio : string) (packages : list (string * package))
  : M string :=
  let fio := fio_write fio (nl +:+ Py.mul "#" 79 +:+ nl) in
  let fio := fio_write fio ("# mxdev development sources" +:+ nl) in
  fio ← foldl
          (fun (acc : M string) '(name, package) =>
             fio ← acc;
             if String.eqb (install_mode package) "skip" then mret fio
             else
               let extras :=
                 if truthy (extras package)
                 then "[" +:+ extras package +:+ "]" else EmptyString in
               let subdir :=
                 if truthy (subdirectory package)
                 then "/" +:+ subdirectory package else EmptyString in
               let install_options :=
                 " --install-option=" +:+ String DQUOTE "--pre"
                 +:+ String DQUOTE EmptyString in
               let editable :=
                 "-e ./" +:+ target package +:+ "/" +:+ name +:+ subdir
                 +:+ extras +:+ install_options +:+ nl in
               logger_call debug ("-> " +:+ Py.strip editable);;
               mret (fio_write fio editable))
          (mret fio) packages;
  mret (fio_write fio nl).

Definition write_dev_overrides (fio : string) (overrides : list (string * string))
    (package_keys : list string) : string :=
  let fio := fio_write fio (nl +:+ Py.mul "#" 79 +:+ nl) in
  let fio := fio_write fio ("# mxdev constraint overrides" +:+ nl) in
  let fio :=
    foldl
      (fun fio '(pkg, line) =>
         if Py.elem pkg package_keys then
           fio_write fio
             ("# " +:+ line
              +:+ " IGNORE mxdev constraint override. Source override wins!"
              +:+ nl)
         else fio_write fio (line +:+ nl))
      fio overrides in
  fio_write fio nl.

Definition write (state : State) : M unit :=
  let requirements := requirements state in
  let constraints := constraints state in
  let cfg := configuration state in
  logger_call info (Py.mul "#" 79);;
  logger_call info "# Write outfiles";;
  logger_call info ("Write [c]: " +:+ out_constraints cfg);;
  with_open_w (out_constraints cfg)
    (fun fio =>
       let fio := fio_writelines fio constraints in
       mret match overrides cfg with
            | _ :: _ => write_dev_overrides fio (overrides cfg) (package_keys cfg)
            | [] => fio
            end);;
  logger_call info ("Write [r]: " +:+ out_requirements cfg);;
  with_open_w (out_requirements cfg)
    (fun fio =>
       let fio := fio_write fio (Py.mul "#" 79 +:+ nl) in
       let fio := fio_write fio ("# mxdev combined constraints" +:+ nl) in
       let fio := fio_write fio ("-c " +:+ out_constraints cfg +:+ nl +:+ nl) in
       fio ← write_dev_sources fio (packages cfg);
       mret (fio_writelines fio requirements)).

(** ** Working copies: the source descriptor and the backend adapter *)

Module Vcs.

(** Modelled from the spec: the VCS kinds of section 2, the submodule
    policies and the install modes of section 3; their declarations
    ([mxdev/vcs]) are not among the sources. *)
Inductive kind := git | mercurial | subversion | bazaar | filesystem_link.
Inductive submodule_policy := always | never | if_present.
Inductive install := editable | skip.

(** Modelled from the spec: the Source Descriptor of section 3; the class
    [mxdev.vcs.extension.Source] the tests build is not among the sources. *)
Record descriptor := Descriptor {
  name : string;
  vcs : kind;
  url : string;
  path : string;
  revision : option string;
  branch : option string;
  extras : list string;
  subdirectory : option string;
  submodules : submodule_policy;
  depth : option positive;
  mode : install
}.

(** Modelled from the spec: the options of section 4.1 and 4.2 that the
    adapters honour, missing with the adapters. *)
Record options := Options {
  offline : bool;
  always_accept_server_certificate : bool
}.

(** Modelled from the spec: the operations of section 4.1 that an adapter
    performs against the VCS tooling, the network and the file system; the
    adapters are not among the sources. *)
Inductive operation :=
  | Clone (url path : string) (depth : option positive)
  | Fetch (path : string)
  | FetchBranch (path branch : string) (depth : option positive)
  | CheckoutRevision (path rev : string)
  | SwitchBranch (path branch : string)
  | FastForward (path : string)
  | SwitchDefault (path : string)
  | SubmoduleUpdate (path : string) (policy : submodule_policy).

(** Modelled from the spec: the status of an Operation Outcome (section 3)
    and the fatal error of section 7, missing with the adapters. *)
Inductive status := cloned | updated | unchanged | switched | failed.

Inductive error := ConfigurationError.

(** Modelled from the spec: what the adapters, which are not among the
    sources, act upon: the working copies present on disk and the operations
    performed so far. *)
Record world := World {
  present : gset string;
  performed : list operation
}.

Definition perform (ops : list operation) (w : world) : world :=
  World (present w) (performed w ++ ops).

(** Modelled from the spec: the validation of section 4.1, "mutual exclusivity
    of revision and branch is validated before any network or filesystem
    operation"; [mxdev/vcs/git.py] is not among the sources. *)
Definition validate (d : descriptor) : option error :=
  match revision d, branch d with
  | Some _, Some _ => Some ConfigurationError
  | _, _ => None
  end.

(** Modelled from the spec: the steps of section 4.1 after a clone or a
    fetch, missing with the adapters: a pinned revision wins, else the branch
    (fetched first in a shallow clone), else the default branch; then the
    submodules, by policy. *)
Definition resolve_target (d : descriptor) : list operation :=
  match revision d, branch d with
  | Some r, _ => [CheckoutRevision (path d) r]
  | None, Some b =>
      match depth d with
      | Some n => [FetchBranch (path d) b (Some n); SwitchBranch (path d) b]
      | None => [SwitchBranch (path d) b]
      end
  | None, None => [SwitchDefault (path d)]
  end
  ++ match submodules d with
     | never => []
     | p => [SubmoduleUpdate (path d) p]
     end.

(** Modelled from the spec: [checkout] of section 4.1. *)
Definition checkout (d : descriptor) (o : options) (w : world)
  : (error + status) * world :=
  match validate d with
  | Some e => (inl e, w)
  | None =>
      if bool_decide (path d ∈ present w) then (inr unchanged, w)
      else if offline o then (inr failed, w)
      else
        (inr cloned,
         World ({[path d]} ∪ present w)
           (performed w ++ Clone (url d) (path d) (depth d) :: resolve_target d))
  end.

(** Modelled from the spec: [update] of section 4.1. *)
Definition update (d : descriptor) (o : options) (w : world)
  : (error + status) * world :=
  match validate d with
  | Some e => (inl e, w)
  | None =>
      if bool_decide (path d ∈ present w) then
        if offline o then (inr unchanged, w)
        else
          (inr updated,
           perform (Fetch (path d) :: resolve_target d
                    ++ match revision d with
                       | Some _ => []
                       | None => [FastForward (path d)]
                       end) w)
      else checkout d o w
  end.

End Vcs.

(** ** Stand-ins for the library functions, to run the pipeline on examples *)

(** The keys [pkg_resources] gives for the requirement lines of the examples;
    it raises on every line that does not start with a project name. *)
Definition sample_parse (line : string) : option string :=
  if String.eqb (Py.strip line) "pkg==1.0" then Some "pkg"
  else if String.eqb (Py.strip line) "other==2.0" then Some "other"
  else None.

(** [urlparse] on the targets of the examples: the scheme of an [http] or
    [https] URL, no scheme for a relative file name. *)
Definition sample_scheme (s : string) : option string :=
  if Py.startswith s "https://" then Some "https"
  else if Py.startswith s "http://" then Some "http"
  else Some EmptyString.

(** Octets below 128 decode to themselves; the stand-in refuses the
    others. *)
Fixpoint sample_decode (b : string) : option string :=
  match b with
  | EmptyString => Some EmptyString
  | String c b' =>
      if Nat.ltb (nat_of_ascii c) 128
      then option_map (String c) (sample_decode b')
      else None
  end.

(** ["#" * 79 + "\n"] *)
Definition rule : string := Py.mul "#" 79 +:+ nl.

(** ** Vocabulary of the statements *)

(** A line that [process_line] takes for an include directive. *)
Definition directive (line : string) : bool :=
  Py.startswith line "-c" || Py.startswith line "-r".

(** The note a suppression rule appends. *)
Definition reason_note (reason : string) : string :=
  " -> mxdev disabled (" +:+ reason +:+ ")".

(** The reasons of the suppression rules that apply to a package key, in the
    order of the rules. *)
Definition matching_reasons (key : string)
    (package_keys override_keys ignore_keys : list string) (variety : string)
  : list string :=
  (if Py.elem key package_keys then ["source"] else [])
  ++ (if String.eqb variety "c" && Py.elem key override_keys
      then ["override"] else [])
  ++ (if String.eqb variety "c" && Py.elem key ignore_keys
      then ["ignore"] else []).

(** What one suppression rule makes of the line it is given. *)
Definition comment_out (line reason : string) : string :=
  "# " +:+ Py.strip line +:+ reason_note reason +:+ nl.

(** A line commented out once for each of the reasons, which follow it in
    order. *)
Definition disabled (line : string) (reasons : list string) : string :=
  Py.mul "# " (length reasons) +:+ Py.strip line
  +:+ Py.join (map reason_note reasons) +:+ nl.

(** What the classifier emits for a line that is no directive, given the
    parser's answer: the line itself when the parser raises, else what the
    rules that apply make of it, one after the other. *)
Definition emitted (parse : string -> option string)
    (package_keys override_keys ignore_keys : list string) (variety : string)
    (line : string) : string :=
  match parse line with
  | None => line
  | Some key =>
      fold_left comment_out
        (matching_reasons key package_keys override_keys ignore_keys variety)
        line
  end.

(** The text of a line once [process_line] has decoded it. *)
Definition text_of (decode : string -> option string) (l : line)
  : option string :=
  match l with
  | Str s => Some s
  | Bytes b => decode b
  end.

(** One emitted line, in the list of the variety. *)
Definition single (variety : string) (out : string)
  : list string * list string :=
  if String.eqb variety "c" then ([], [out]) else ([out], []).

(** A block of requirement lines between its delimiters. *)
Definition requirements_block (origin : string) (body : list string)
  : list string :=
  [rule; "# begin requirements from: " +:+ origin +:+ nl +:+ nl]
  ++ body
  ++ [nl; "# end requirements from: " +:+ origin +:+ nl; rule].

(** A block of constraint lines between its delimiters. *)
Definition constraints_block (origin : string) (body : list string)
  : list string :=
  [rule; "# begin constraints from: " +:+ origin +:+ nl; nl]
  ++ body
  ++ [nl; "# end constraints from: " +:+ origin +:+ nl; rule +:+ nl].

(** A sequence of delimited blocks, none of them empty. *)
Inductive blocks (block : string -> list string -> list string)
  : list string -> Prop :=
  | blocks_nil : blocks block []
  | blocks_app origin body rest :
      body <> [] -> blocks block rest ->
      blocks block (block origin body ++ rest).

(** A list that is empty or is one block from [origin]. *)
Definition wrapped (block : string -> list string -> list string)
    (origin : string) (l : list string) : Prop :=
  l = [] \/ exists body, body <> [] /\ l = block origin body.

(** What a call of [resolve_dependencies] in [variety] on [origin] may hand
    back: in the list of its variety nothing or one block from [origin], in
    the other list the blocks of the includes. *)
Definition well_delimited (variety origin : string)
    (r : list string * list string) : Prop :=
  (variety = "r" ->
   wrapped requirements_block origin (fst r) /\ blocks constraints_block (snd r))
  /\ (variety = "c" ->
      blocks requirements_block (fst r) /\ wrapped constraints_block origin (snd r)).

(** The end of [resolve_dependencies]: a list of the call's own variety that
    is not empty is put between the delimiters. *)
Definition close_requirements (variety origin : string)
    (requirements : list string) : list string :=
  if Py.nonempty requirements && String.eqb variety "r"
  then requirements_block origin requirements
  else requirements.

Definition close_constraints (variety origin : string)
    (constraints : list string) : list string :=
  if Py.nonempty constraints && String.eqb variety "c"
  then constraints_block origin constraints
  else constraints.

(** What the loop keeps true of the two lists: the lines of the other
    variety come from includes only, block by block. *)
Definition includes_delimited (v : string) (r : list string * list string)
  : Prop :=
  (v = "r" -> blocks constraints_block (snd r))
  /\ (v = "c" -> blocks requirements_block (fst r)).

(** The lines of a text file, as the loop of [process_io] meets them. *)
Definition lines_of (text : string) : list string :=
  iter_lines (universal_newlines text).

(** A computation whose value, when it returns one, satisfies [Q]. *)
Definition ensures {A} (m : M A) (Q : A -> Prop) : Prop :=
  forall w a w', m w = (Ok a, w') -> Q a.

(** Two worlds with the same files and the same remote documents. *)
Definition same_sources (w1 w2 : world) : Prop :=
  files w1 = files w2 /\ net w1 = net w2.

(** A computation that only reads its sources: it leaves them as they are,
    and its outcome is the same in worlds that agree on them (whatever was
    logged before). *)
Definition reader {A} (m : M A) : Prop :=
  forall w1 w2, same_sources w1 w2 ->
    fst (m w1) = fst (m w2) /\ same_sources (snd (m w1)) w1.

(** A line that is one of the delimiters of some block. *)
Definition delimiter (l : string) : Prop :=
  l = rule \/ l = rule +:+ nl
  \/ Py.startswith l "# begin requirements from: " = true
  \/ Py.startswith l "# end requirements from: " = true
  \/ Py.startswith l "# begin constraints from: " = true
  \/ Py.startswith l "# end constraints from: " = true.

(** The overrides section as the specification words it: one line for each
    override, verbatim, or as a comment when the package is a local
    source. *)
Definition override_entry (package_keys : list string)
    (entry : string * string) : string :=
  if Py.elem (fst entry) package_keys
  then "# " +:+ snd entry
       +:+ " IGNORE mxdev constraint override. Source override wins!" +:+ nl
  else snd entry +:+ nl.

Definition overrides_section (overrides : list (string * string))
    (package_keys : list string) : string :=
  match overrides with
  | [] => EmptyString
  | _ :: _ =>
      nl +:+ Py.mul "#" 79 +:+ nl
      +:+ "# mxdev constraint overrides" +:+ nl
      +:+ Py.join (map (override_entry package_keys) overrides)
      +:+ nl
  end.

(** The world after one more call of the logger. *)
Definition logged (w : world) (calls : list (logger_method * string)) : world :=
  World (files w) (net w) (log w ++ calls).

(** ** The resolution pipeline *)

Section Pipeline.

(** [pkg_resources.Requirement.parse(line).key] for the call at hand: [None]
    when the parser raises, whatever it raises, as the [except] clause lets
    every [Exception] pass. *)
Variable Requirement_parse : string -> option string.
(** [urllib.parse.urlparse(s).scheme]: [None] when [urlparse] raises
    [ValueError]. *)
Variable urlparse_scheme : string -> option string.
(** [b.decode("utf8")]: [None] when the octets are not UTF-8. *)
Variable decode_utf8 : string -> option string.

(** The type of [resolve_dependencies], for the calls [process_line] makes
    back into it. *)
Definition resolver : Type :=
  string -> list string -> list string -> list string -> string ->
  M (list string * list string).

(** [line.split(" ")[1]] *)
Definition second_field (s : string) : M string :=
  match Py.split " " s with
  | _ :: t :: _ => ret t
  | _ => raise IndexError
  end.

Definition process_line (resolve_dependencies : resolver) (line : line)
    (package_keys override_keys ignore_keys : list string) (variety : string)
  : M (list string * list string) :=
  line ← match line with
         | Bytes b =>
             match decode_utf8 b with
             | Some s => ret s
             | None => raise UnicodeDecodeError
             end
         | Str s => ret s
         end;
  logger_call debug ("Process Line [" +:+ variety +:+ "]: " +:+ Py.strip line);;
  if Py.startswith line "-c" then
    target ← second_field line;
    resolve_dependencies (Py.strip target) package_keys override_keys
      ignore_keys "c"
  else if Py.startswith line "-r" then
    target ← second_field line;
    resolve_dependencies (Py.strip target) package_keys override_keys
      ignore_keys "r"
  else
    let line :=
      match Requirement_parse line with
      | None => line
      | Some key =>
          let line :=
            if Py.elem key package_keys
            then "# " +:+ Py.strip line +:+ " -> mxdev disabled (source)" +:+ nl
            else line in
          let line :=
            if String.eqb variety "c" && Py.elem key override_keys
            then "# " +:+ Py.strip line +:+ " -> mxdev disabled (override)" +:+ nl
            else line in
          let line :=
            if String.eqb variety "c" && Py.elem key ignore_keys
            then "# " +:+ Py.strip line +:+ " -> mxdev disabled (ignore)" +:+ nl
            else line in
          line
      end in
    if String.eqb variety "c" then mret ([], [line]) else mret ([line], []).

(** The loop extends the caller's two lists in place; the embedding hands
    them back. *)
Fixpoint process_io (resolve_dependencies : resolver) (fio : list line)
    (requirements constraints : list string)
    (package_keys override_keys ignore_keys : list string) (variety : string)
  : M (list string * list string) :=
  match fio with
  | [] => mret (requirements, constraints)
  | line :: fio' =>
      '(new_requirements, new_constraints) ←
        process_line resolve_dependencies line package_keys override_keys
          ignore_keys variety;
      process_io resolve_dependencies fio'
        (requirements ++ new_requirements) (constraints ++ new_constraints)
        package_keys override_keys ignore_keys variety
  end.

(** [depth] is the number of nested calls the interpreter still allows;
    Python raises [RecursionError] beyond it. *)
Fixpoint resolve_dependencies (depth : nat) (file_or_url : string)
    (package_keys override_keys ignore_keys : list string) (variety : string)
  : M (list string * list string) :=
  match depth with
  | O => raise RecursionError
  | S depth' =>
      if String.eqb (Py.strip file_or_url) EmptyString then
        logger_call info "mxdev is configured to run without input requirements!";;
        mret ([], [])
      else
        logger_call info ("Read [" +:+ variety +:+ "]: " +:+ file_or_url);;
        scheme ← match urlparse_scheme file_or_url with
                 | Some s => ret s
                 | None => raise ValueError
                 end;
        let variety_verbose :=
          if String.eqb variety "r" then "requirements" else "constraints" in
        '(requirements, constraints) ←
          (if String.eqb scheme EmptyString then
             file_exists ← path_exists file_or_url;
             if (file_exists : bool) then
               fio ← path_open_r file_or_url;
               process_io (resolve_dependencies depth') fio [] []
                 package_keys override_keys ignore_keys variety
             else
               logger_call info
                 ("Can not read " +:+ variety_verbose +:+ " file '" +:+ file_or_url
                  +:+ "', it does not exist. Empty file assumed.");;
               mret ([], [])
           else
             fio ← urlopen file_or_url;
             process_io (resolve_dependencies depth') fio [] []
               package_keys override_keys ignore_keys variety);
        let requirements :=
          if Py.nonempty requirements && String.eqb variety "r" then
            [rule; "# begin requirements from: " +:+ file_or_url +:+ nl +:+ nl]
            ++ requirements
            ++ [nl; "# end requirements from: " +:+ file_or_url +:+ nl; rule]
          else requirements in
        let constraints :=
          if Py.nonempty constraints && String.eqb variety "c" then
            [rule; "# begin constraints from: " +:+ file_or_url +:+ nl; nl]
            ++ constraints
            ++ [nl; "# end constraints from: " +:+ file_or_url +:+ nl;
                rule +:+ nl]
          else constraints in
        mret (requirements, constraints)
  end.

(** [read] passes no [variety]: the entry point is resolved with the default
    ["r"], whatever [read] itself was given. *)
Definition read (depth : nat) (state : State) (variety : string) : M State :=
  let cfg := configuration state in
  '(requirements, constraints) ←
    resolve_dependencies depth (infile cfg) (package_keys cfg)
      (override_keys cfg) (ignore_keys cfg) "r";
  mret {| configuration := cfg;
          requirements := requirements;
          constraints := constraints |}.

End Pipeline.

(** A small world for the examples: an entry point that includes a
    requirements file, a file that names a local source, notes that are no
    requirement, and an empty file. *)
Definition sample_world : world :=
  World
    (<["constraints.txt" := File ("-r deps.txt" +:+ nl +:+ "pkg==1.0" +:+ nl)]>
       (<["deps.txt" := File ("other==2.0" +:+ nl)]>
          (<["requirements.txt" := File ("pkg==1.0" +:+ nl)]>
             (<["notes.txt" := File ("to be sorted out!" +:+ nl)]>
                (<["empty.txt" := File EmptyString]> ∅)))))
    ∅ [].

(** [resolve_dependencies] with the stand-ins and room for nested calls. *)
Definition sample_resolve : resolver :=
  resolve_dependencies sample_parse sample_scheme sample_decode 8.

(** The source of the test [testUpdateWithRevisionPin] that has both a
    revision and a branch. *)
Definition sample_source : Vcs.descriptor :=
  Vcs.Descriptor "egg" Vcs.git "file:///repository" "src/egg-failed"
    (Some "0123abc") (Some "test") [] None Vcs.always None Vcs.editable.

(** A state ready to be written, with one override for a local source and
    one for a package that is none. *)
Definition sample_state : State :=
  {| configuration :=
       {| infile := "constraints.txt";
          package_keys := ["pkg"];
          override_keys := ["pkg"; "other"];
          ignore_keys := [];
          overrides := [("pkg", "pkg==3.0"); ("other", "other==2.1")];
          packages := [("pkg", Package "direct" "test" EmptyString "sources")];
          out_requirements := "requirements-mxdev.txt";
          out_constraints := "constraints-mxdev.txt" |};
     requirements := [];
     constraints := ["zope==5.0" +:+ nl] |}.


(** ** Vocabulary of the further statements *)

(** Whether a character occurs in a string. *)
Fixpoint has_char (c : ascii) (s : string) : bool :=
  match s with
  | EmptyString => false
  | String a s' => Ascii.eqb a c || has_char c s'
  end.

(** The context a directive line forces on its target. *)
Definition directive_variety (line : string) : string :=
  if Py.startswith line "-c" then "c" else "r".

(** A computation that only adds calls of [logger.debug] and [logger.info]
    to the log. *)
Definition quiet {A} (m : M A) : Prop :=
  forall w, exists calls,
    log (snd (m w)) = log w ++ calls
    /\ Forall (fun call => fst call = debug \/ fst call = info) calls.


(** The entry of one development source in the requirements file. *)
Definition editable_entry (name : string) (p : package) : string :=
  "-e ./" +:+ target p +:+ "/" +:+ name
  +:+ (if truthy (subdirectory p) then "/" +:+ subdirectory p else EmptyString)
  +:+ (if truthy (extras p) then "[" +:+ extras p +:+ "]" else EmptyString)
  +:+ " --install-option=" +:+ String DQUOTE "--pre"
  +:+ String DQUOTE EmptyString +:+ nl.

(** The packages that are installed: those whose install mode is not
    [skip]. *)
Definition installed (pkgs : list (string * package))
  : list (string * package) :=
  List.filter (fun np => negb (String.eqb (install_mode (snd np)) "skip")) pkgs.

(** The calls of [logger.debug] that announce the entries. *)
Definition announced (pkgs : list (string * package))
  : list (logger_method * string) :=
  map (fun np => (debug, "-> " +:+ Py.strip (editable_entry (fst np) (snd np))))
    (installed pkgs).

(** The section of the development sources. *)
Definition sources_section (pkgs : list (string * package)) : string :=
  nl +:+ Py.mul "#" 79 +:+ nl
  +:+ "# mxdev development sources" +:+ nl
  +:+ Py.join (map (fun np => editable_entry (fst np) (snd np)) (installed pkgs))
  +:+ nl.

(** The whole text of the constraints file and of the requirements file. *)
Definition constraints_text (state : State) : string :=
  Py.join (constraints state)
  +:+ overrides_section (overrides (configuration state))
        (package_keys (configuration state)).

Definition requirements_text (state : State) : string :=
  Py.mul "#" 79 +:+ nl
  +:+ "# mxdev combined constraints" +:+ nl
  +:+ "-c " +:+ out_constraints (configuration state) +:+ nl +:+ nl
  +:+ sources_section (packages (configuration state))
  +:+ Py.join (requirements state).

(** The three calls of the logger with which [write] starts and goes on. *)
Definition write_banner (state : State) : list (logger_method * string) :=
  [(info, Py.mul "#" 79);
   (info, "# Write outfiles");
   (info, "Write [c]: " +:+ out_constraints (configuration state))].

(** A world with a directory, a name too long to be examined, a file that
    includes itself, a file whose include has no target, and a remote
    document. *)
Definition edge_world : world :=
  World
    (<["sources" := Dir]>
       (<[Py.mul "a" 300 := Unexaminable]>
       (<["loop.txt" := File ("pkg==1.0" +:+ nl +:+ "-r loop.txt" +:+ nl)]>
          (<["spaced.txt" := File ("-r  deps.txt" +:+ nl)]>
             (<["deps.txt" := File ("other==2.0" +:+ nl)]> ∅)))))
    (<["https://example.org/constraints.txt"
       := "pkg==1.0" +:+ String CR nl +:+ "other==2.0" +:+ nl]> ∅)
    [].

(** * Properties *)

(** ** Strings *)

Lemma sapp_cons (c : ascii) (s t : string) :
  String c s +:+ t = String c (s +:+ t).
Proof. reflexivity. Qed.

Lemma sapp_nil_l (s : string) : EmptyString +:+ s = s.
Proof. reflexivity. Qed.

Lemma sapp_nil_r (s : string) : s +:+ EmptyString = s.
Proof. induction s as [|c s IH]; [reflexivity|]. rewrite sapp_cons, IH. reflexivity. Qed.

Lemma sapp_assoc (s t u : string) : (s +:+ t) +:+ u = s +:+ (t +:+ u).
Proof.
  induction s as [|c s IH]; [reflexivity|].
  rewrite !sapp_cons, IH. reflexivity.
Qed.

Lemma startswith_app (p s : string) : Py.startswith (p +:+ s) p = true.
Proof.
  induction p as [|c p IH]; [reflexivity|].
  rewrite sapp_cons. simpl. rewrite Ascii.eqb_refl. exact IH.
Qed.

(** Trailing white space goes, up to the last character that is none. *)
Lemma rstrip_app_last (s : string) (c : ascii) :
  Py.isspace c = false ->
  Py.rstrip (s +:+ String c nl) = s +:+ String c EmptyString.
Proof.
  intros Hc. induction s as [|a s IH].
  - rewrite !sapp_nil_l. simpl. rewrite Hc. reflexivity.
  - rewrite !sapp_cons. simpl. rewrite IH.
    destruct s; reflexivity.
Qed.

Lemma strip_framed (c d : ascii) (s : string) :
  Py.isspace c = false -> Py.isspace d = false ->
  Py.strip (String c (s +:+ String d nl)) = String c (s +:+ String d EmptyString).
Proof.
  intros Hc Hd. unfold Py.strip.
  rewrite <- sapp_cons, rstrip_app_last by exact Hd.
  rewrite sapp_cons. simpl. rewrite Hc. reflexivity.
Qed.

(** ** [autocorrect_pip_url] *)

Lemma autocorrect_git_plus (s : string) :
  autocorrect_pip_url ("git+" +:+ s) = "git+" +:+ s.
Proof. reflexivity. Qed.

(** C10: [autocorrect_pip_url] is idempotent; a rewritten URL starts with
    [git+], which none of the three prefixes [git@], [ssh://] and [https://]
    matches, and a URL that is not rewritten is returned as it is. *)
Theorem autocorrect_pip_url_idempotent (s : string) :
  autocorrect_pip_url (autocorrect_pip_url s) = autocorrect_pip_url s.
Proof.
  assert (Hcases : (exists t, autocorrect_pip_url s = "git+" +:+ t)
                   \/ autocorrect_pip_url s = s).
  { unfold autocorrect_pip_url.
    destruct (Py.startswith s "git@");
      [left; exists ("ssh://" +:+ Py.replace ":" "/" s); reflexivity|].
    destruct (Py.startswith s "ssh://"); [left; eexists; reflexivity|].
    destruct (Py.startswith s "https://"); [left; eexists; reflexivity|].
    right; reflexivity. }
  destruct Hcases as [[t Ht] | Hid].
  - rewrite Ht. apply autocorrect_git_plus.
  - rewrite Hid. exact Hid.
Qed.

(** ** The line classifier *)

Lemma mul_S (s : string) (n : nat) : Py.mul s (S n) = s +:+ Py.mul s n.
Proof. reflexivity. Qed.

Lemma join_app (l1 l2 : list string) :
  Py.join (l1 ++ l2) = Py.join l1 +:+ Py.join l2.
Proof.
  induction l1 as [|x l1 IH]; [reflexivity|].
  simpl. rewrite IH, sapp_assoc. reflexivity.
Qed.

(** Stripping a suppressed line takes its final line feed off and nothing
    else. *)
Lemma strip_disabled (line : string) (rs : list string) (r : string) :
  Py.strip (disabled line (rs ++ [r]))
  = Py.mul "# " (length (rs ++ [r])) +:+ Py.strip line
    +:+ Py.join (map reason_note (rs ++ [r])).
Proof.
  unfold disabled. rewrite length_app, Nat.add_comm. simpl length.
  rewrite mul_S, map_app, join_app. simpl map. simpl Py.join.
  unfold reason_note at 2 4. rewrite !sapp_nil_r.
  set (body := Py.mul "# " (length rs) +:+ Py.strip line
               +:+ Py.join (map reason_note rs) +:+ " -> mxdev disabled (" +:+ r).
  transitivity (Py.strip (String "#" ((" " +:+ body) +:+ String ")" nl))).
  { f_equal. unfold body. rewrite !sapp_assoc. reflexivity. }
  rewrite strip_framed by reflexivity.
  unfold body. rewrite !sapp_assoc. reflexivity.
Qed.

(** Applying the rules one after the other yields the line commented out
    once for each rule that applied. *)
Lemma fold_comment_out (line : string) (rs : list string) :
  rs <> [] -> fold_left comment_out rs line = disabled line rs.
Proof.
  induction rs as [|r rs IH] using rev_ind; [congruence|]. intros _.
  rewrite fold_left_app. simpl.
  destruct rs as [|r0 rs].
  - simpl. unfold comment_out, disabled. simpl.
    rewrite !sapp_nil_r. reflexivity.
  - rewrite IH by discriminate.
    unfold comment_out.
    change (r0 :: rs) with ([] ++ r0 :: rs).
    destruct (exists_last (l := [] ++ r0 :: rs)) as [rs' [r' Hlast]];
      [discriminate|].
    rewrite Hlast, strip_disabled.
    unfold disabled. rewrite !length_app, !map_app, !join_app.
    simpl length. rewrite !Nat.add_1_r.
    rewrite !mul_S. simpl. rewrite !sapp_nil_r, !sapp_assoc. reflexivity.
Qed.

Section PipelineFacts.

Variable Requirement_parse : string -> option string.
Variable urlparse_scheme : string -> option string.
Variable decode_utf8 : string -> option string.

Local Abbreviation classify := (process_line Requirement_parse decode_utf8).
Local Abbreviation run_io := (process_io Requirement_parse decode_utf8).
Local Abbreviation resolve :=
  (resolve_dependencies Requirement_parse urlparse_scheme decode_utf8).

Lemma directive_false (line : string) :
  directive line = false ->
  Py.startswith line "-c" = false /\ Py.startswith line "-r" = false.
Proof. unfold directive. intros H. apply orb_false_elim in H. exact H. Qed.

(** A line that is no directive yields one line, in the list of its variety:
    itself when the parser raises, else what the suppression rules that apply
    make of it. *)
Lemma process_line_requirement (rd : resolver) (l : line) (line : string)
    (pk ok ik : list string) (v : string) (w : world) :
  text_of decode_utf8 l = Some line ->
  directive line = false ->
  classify rd l pk ok ik v w
  = (Ok (single v (emitted Requirement_parse pk ok ik v line)),
     logged w [(debug, "Process Line [" +:+ v +:+ "]: " +:+ Py.strip line)]).
Proof.
  intros Ht Hd. apply directive_false in Hd as [Hc Hr].
  destruct l as [s0|b]; simpl in Ht; [injection Ht as ->|];
    unfold process_line;
    unfold mbind, M_bind, mret, M_ret, bind, ret, logger_call, logged;
    [|rewrite Ht]; cbv beta iota; rewrite Hc, Hr;
    unfold emitted, single;
    (destruct (Requirement_parse line) as [key|];
     [unfold matching_reasons;
      destruct (Py.elem key pk), (String.eqb v "c"), (Py.elem key ok),
        (Py.elem key ik); reflexivity
     |destruct (String.eqb v "c"); reflexivity]).
Qed.

(** C1, as the code has it: in constraint context, when the package key of
    a line that is no directive is in more than one of [package_keys],
    [override_keys] and [ignore_keys], every rule that matches is applied, in
    the order source, override, ignore, each to the line the one before left:
    the line is commented out once per matching rule and carries the reasons
    of all of them, in that order. *)
Theorem suppression_rules_accumulate (rd : resolver) (l : line)
    (line key : string) (pk ok ik : list string) (w : world) :
  text_of decode_utf8 l = Some line ->
  directive line = false ->
  Requirement_parse line = Some key ->
  1 < length (matching_reasons key pk ok ik "c") ->
  fst (classify rd l pk ok ik "c" w)
  = Ok ([], [disabled line (matching_reasons key pk ok ik "c")]).
Proof.
  intros Ht Hd Hp Hlen.
  rewrite (process_line_requirement rd l line) by assumption.
  unfold emitted. rewrite Hp. simpl. rewrite fold_comment_out; [reflexivity|].
  intros Hnil. rewrite Hnil in Hlen. simpl in Hlen. lia.
Qed.

(** C4: in requirement context a line whose key is not in [package_keys] is
    emitted as it is, whatever [override_keys] and [ignore_keys] hold; a key
    in [package_keys] suppresses the line in requirement context too, with
    the reason of the source rule alone; in constraint context a key in any
    of the three lists suppresses the line. *)
Theorem override_ignore_only_in_constraints (rd : resolver) (l : line)
    (line key : string) (pk ok ik : list string) (w : world) :
  text_of decode_utf8 l = Some line ->
  directive line = false ->
  Requirement_parse line = Some key ->
  (Py.elem key pk = false ->
   fst (classify rd l pk ok ik "r" w) = Ok ([line], []))
  /\ (Py.elem key pk = true ->
      fst (classify rd l pk ok ik "r" w) = Ok ([disabled line ["source"]], []))
  /\ (Py.elem key pk || Py.elem key ok || Py.elem key ik = true ->
      matching_reasons key pk ok ik "c" <> []
      /\ fst (classify rd l pk ok ik "c" w)
         = Ok ([], [disabled line (matching_reasons key pk ok ik "c")])).
Proof.
  intros Ht Hd Hp.
  rewrite !(process_line_requirement rd l line) by assumption.
  unfold emitted. rewrite Hp. simpl.
  split; [|split].
  - intros Hpk. unfold matching_reasons. rewrite Hpk. reflexivity.
  - intros Hpk. unfold matching_reasons. rewrite Hpk. simpl.
    unfold comment_out, disabled. simpl. rewrite !sapp_nil_r. reflexivity.
  - intros Hany.
    assert (Hne : matching_reasons key pk ok ik "c" <> []).
    { unfold matching_reasons. simpl.
      destruct (Py.elem key pk), (Py.elem key ok), (Py.elem key ik);
        simpl in *; congruence. }
    split; [exact Hne|]. rewrite fold_comment_out by exact Hne. reflexivity.
Qed.

(** The loop over lines none of which is a directive: each line adds what
    the classifier emits for it to the list of the variety, in order. *)
Lemma process_io_requirements (rd : resolver) (fio : list line)
    (lines : list string) (pk ok ik : list string) (v : string) :
  Forall2 (fun l line => text_of decode_utf8 l = Some line) fio lines ->
  Forall (fun line => directive line = false) lines ->
  forall (reqs cons : list string) (w : world),
    exists w',
      run_io rd fio reqs cons pk ok ik v w
      = (Ok (if String.eqb v "c"
             then (reqs, cons ++ map (emitted Requirement_parse pk ok ik v) lines)
             else (reqs ++ map (emitted Requirement_parse pk ok ik v) lines, cons)),
         w')
      /\ files w' = files w /\ net w' = net w.
Proof.
  intros Hdec. induction Hdec as [|l line fio lines Ht _ IH];
    intros Hdir reqs cons w.
  - exists w. simpl. rewrite !app_nil_r.
    destruct (String.eqb v "c"); auto.
  - inversion Hdir as [|? ? Hd Hdir']; subst.
    simpl process_io. unfold mbind, M_bind, bind.
    rewrite (process_line_requirement rd l line) by assumption.
    unfold single.
    destruct (String.eqb v "c") eqn:Hv.
    + destruct (IH Hdir' (reqs ++ [])
                  (cons ++ [emitted Requirement_parse pk ok ik v line])
                  (logged w [(debug, "Process Line [" +:+ v +:+ "]: "
                                     +:+ Py.strip line)]))
        as (w' & Hrun & Hf & Hn).
      exists w'. rewrite Hrun. simpl.
      rewrite app_nil_r, <- app_assoc. auto.
    + destruct (IH Hdir' (reqs ++ [emitted Requirement_parse pk ok ik v line])
                  (cons ++ [])
                  (logged w [(debug, "Process Line [" +:+ v +:+ "]: "
                                     +:+ Py.strip line)]))
        as (w' & Hrun & Hf & Hn).
      exists w'. rewrite Hrun. simpl.
      rewrite app_nil_r, <- app_assoc. auto.
Qed.

(** *** Computations that only read *)

Lemma reader_ret {A} (a : A) : reader (ret a).
Proof. intros w1 w2 H. split; [reflexivity|split; reflexivity]. Qed.

Lemma reader_raise {A} (e : exn) : reader (@raise A e).
Proof. intros w1 w2 H. split; [reflexivity|split; reflexivity]. Qed.

Lemma reader_bind {A B} (m : M A) (k : A -> M B) :
  reader m -> (forall a, reader (k a)) -> reader (bind m k).
Proof.
  intros Hm Hk w1 w2 H. unfold bind.
  destruct (Hm w1 w2 H) as [Hfst Hsrc1].
  destruct (Hm w2 w1) as [_ Hsrc2]; [destruct H; split; congruence|].
  destruct (m w1) as [[a1|e1] w1'], (m w2) as [[a2|e2] w2'];
    simpl in *; try discriminate.
  - injection Hfst as ->.
    assert (H' : same_sources w1' w2').
    { destruct H, Hsrc1, Hsrc2. split; congruence. }
    destruct (Hk a2 w1' w2' H') as [Hk1 Hk2].
    split; [exact Hk1|].
    destruct Hk2, Hsrc1. split; congruence.
  - injection Hfst as ->. split; [reflexivity|assumption].
Qed.

Lemma reader_logger_call (m : logger_method) (msg : string) :
  reader (logger_call m msg).
Proof. intros w1 w2 H. split; [reflexivity|split; reflexivity]. Qed.

Lemma reader_path_exists (p : string) : reader (path_exists p).
Proof.
  intros w1 w2 [Hf Hn]. unfold path_exists. rewrite Hf.
  destruct (files w2 !! p) as [[|text|]|]; split; try reflexivity;
    split; reflexivity.
Qed.

Lemma reader_path_open_r (p : string) : reader (path_open_r p).
Proof.
  intros w1 w2 [Hf Hn]. unfold path_open_r. rewrite Hf.
  destruct (files w2 !! p) as [[|text|]|]; split; try reflexivity;
    split; reflexivity.
Qed.

Lemma reader_urlopen (u : string) : reader (urlopen u).
Proof.
  intros w1 w2 [Hf Hn]. unfold urlopen. rewrite Hn.
  destruct (net w2 !! u); split; try reflexivity; split; reflexivity.
Qed.

Lemma reader_second_field (s : string) : reader (second_field s).
Proof.
  unfold second_field. destruct (Py.split " " s) as [|? [|? ?]];
    first [apply reader_ret | apply reader_raise].
Qed.

Lemma reader_process_line (rd : resolver) (l : line) (pk ok ik : list string)
    (v : string) :
  (forall f v', reader (rd f pk ok ik v')) ->
  reader (classify rd l pk ok ik v).
Proof.
  intros Hrd. unfold process_line, mbind, M_bind, mret, M_ret.
  apply reader_bind.
  { destruct l as [s|b]; [apply reader_ret|].
    destruct (decode_utf8 b); [apply reader_ret|apply reader_raise]. }
  intros line. apply reader_bind; [apply reader_logger_call|]. intros _.
  destruct (Py.startswith line "-c").
  { apply reader_bind; [apply reader_second_field|]. intros t. apply Hrd. }
  destruct (Py.startswith line "-r").
  { apply reader_bind; [apply reader_second_field|]. intros t. apply Hrd. }
  destruct (String.eqb v "c"); apply reader_ret.
Qed.

Lemma reader_process_io (rd : resolver) (fio : list line)
    (pk ok ik : list string) (v : string) :
  (forall f v', reader (rd f pk ok ik v')) ->
  forall reqs cons, reader (run_io rd fio reqs cons pk ok ik v).
Proof.
  intros Hrd. induction fio as [|l fio IH]; intros reqs cons; simpl.
  - apply reader_ret.
  - unfold mbind, M_bind. apply reader_bind.
    + apply reader_process_line, Hrd.
    + intros [r c]. apply IH.
Qed.

Lemma reader_resolve_dependencies (d : nat) (f : string)
    (pk ok ik : list string) (v : string) :
  reader (resolve d f pk ok ik v).
Proof.
  revert f v. induction d as [|d IH]; intros f v; simpl.
  - apply reader_raise.
  - destruct (String.eqb (Py.strip f) EmptyString).
    { unfold mbind, M_bind, mret, M_ret.
      apply reader_bind; [apply reader_logger_call|]. intros _. apply reader_ret. }
    unfold mbind, M_bind, mret, M_ret.
    apply reader_bind; [apply reader_logger_call|]. intros _.
    apply reader_bind.
    { destruct (urlparse_scheme f); [apply reader_ret|apply reader_raise]. }
    intros scheme. apply reader_bind.
    + destruct (String.eqb scheme EmptyString).
      * apply reader_bind; [apply reader_path_exists|]. intros [|].
        -- apply reader_bind; [apply reader_path_open_r|]. intros fio.
           apply reader_process_io. intros f' v'. apply IH.
        -- apply reader_bind; [apply reader_logger_call|]. intros _.
           apply reader_ret.
      * apply reader_bind; [apply reader_urlopen|]. intros fio.
        apply reader_process_io. intros f' v'. apply IH.
    + intros [r c]. apply reader_ret.
Qed.

(** C7: resolving the same target a second time, in the world the first run
    left, has the outcome of the first run: the same two sequences of lines,
    or the same exception.  The run changes neither the files nor the remote
    documents, and what it logged has no bearing on the outcome. *)
Theorem resolve_dependencies_rerun (d : nat) (f : string)
    (pk ok ik : list string) (v : string) (w : world) :
  fst (resolve d f pk ok ik v (snd (resolve d f pk ok ik v w)))
  = fst (resolve d f pk ok ik v w)
  /\ same_sources (snd (resolve d f pk ok ik v w)) w.
Proof.
  destruct (reader_resolve_dependencies d f pk ok ik v w w) as [_ Hsrc];
    [split; reflexivity|].
  split; [|exact Hsrc].
  apply (reader_resolve_dependencies d f pk ok ik v). exact Hsrc.
Qed.

(** *** What a computation ensures when it returns *)

Lemma ensures_ret {A} (a : A) (Q : A -> Prop) : Q a -> ensures (ret a) Q.
Proof. intros HQ w a' w' H. injection H as <- _. exact HQ. Qed.

Lemma ensures_raise {A} (e : exn) (Q : A -> Prop) : ensures (raise e) Q.
Proof. intros w a w' H. discriminate H. Qed.

Lemma ensures_bind {A B} (m : M A) (k : A -> M B) (P : A -> Prop)
    (Q : B -> Prop) :
  ensures m P -> (forall a, P a -> ensures (k a) Q) -> ensures (bind m k) Q.
Proof.
  intros Hm Hk w b w' H. unfold bind in H.
  destruct (m w) as [[a|e] w1] eqn:Hmw; [|discriminate H].
  exact (Hk a (Hm w a w1 Hmw) w1 b w' H).
Qed.

Lemma ensures_true {A} (m : M A) : ensures m (fun _ => True).
Proof. intros w a w' _. exact I. Qed.

Lemma blocks_concat (block : string -> list string -> list string)
    (l1 l2 : list string) :
  blocks block l1 -> blocks block l2 -> blocks block (l1 ++ l2).
Proof.
  intros H1 H2. induction H1 as [|origin body rest Hne _ IH]; [exact H2|].
  rewrite <- app_assoc. apply blocks_app; assumption.
Qed.

Lemma wrapped_blocks (block : string -> list string -> list string)
    (origin : string) (l : list string) :
  wrapped block origin l -> blocks block l.
Proof.
  intros [-> | (body & Hne & ->)]; [apply blocks_nil|].
  rewrite <- (app_nil_r (block origin body)).
  apply blocks_app; [exact Hne|apply blocks_nil].
Qed.

Lemma well_delimited_blocks (v origin : string) (r : list string * list string) :
  v = "r" \/ v = "c" -> well_delimited v origin r ->
  blocks requirements_block (fst r) /\ blocks constraints_block (snd r).
Proof.
  intros [-> | ->] [Hr Hc].
  - destruct (Hr eq_refl) as [H1 H2]. split; [|exact H2].
    eapply wrapped_blocks; exact H1.
  - destruct (Hc eq_refl) as [H1 H2]. split; [exact H1|].
    eapply wrapped_blocks; exact H2.
Qed.

Lemma ensures_process_line (rd : resolver) (l : line) (pk ok ik : list string)
    (v : string) :
  (forall f v', v' = "r" \/ v' = "c" ->
     ensures (rd f pk ok ik v') (well_delimited v' f)) ->
  ensures (classify rd l pk ok ik v) (includes_delimited v).
Proof.
  intros Hrd. unfold process_line, mbind, M_bind, mret, M_ret.
  eapply ensures_bind; [apply ensures_true|]. intros line _.
  eapply ensures_bind; [apply ensures_true|]. intros _ _.
  assert (Hinc : forall t v', v' = "r" \/ v' = "c" ->
            ensures (rd t pk ok ik v') (includes_delimited v)).
  { intros t v' Hv' w a w' Hrun.
    destruct (well_delimited_blocks v' t a Hv' (Hrd t v' Hv' w a w' Hrun)).
    split; intros _; assumption. }
  destruct (Py.startswith line "-c").
  { eapply ensures_bind; [apply ensures_true|]. intros t _.
    apply Hinc. right; reflexivity. }
  destruct (Py.startswith line "-r").
  { eapply ensures_bind; [apply ensures_true|]. intros t _.
    apply Hinc. left; reflexivity. }
  destruct (String.eqb v "c") eqn:Hv; apply ensures_ret; split; simpl; intros Hv'.
  - subst v. discriminate Hv.
  - apply blocks_nil.
  - apply blocks_nil.
  - subst v. discriminate Hv.
Qed.

Lemma ensures_process_io (rd : resolver) (fio : list line)
    (pk ok ik : list string) (v : string) :
  (forall f v', v' = "r" \/ v' = "c" ->
     ensures (rd f pk ok ik v') (well_delimited v' f)) ->
  forall reqs cons,
    includes_delimited v (reqs, cons) ->
    ensures (run_io rd fio reqs cons pk ok ik v) (includes_delimited v).
Proof.
  intros Hrd. induction fio as [|l fio IH]; intros reqs cons Hacc; simpl.
  - apply ensures_ret. exact Hacc.
  - unfold mbind, M_bind. eapply ensures_bind.
    + apply ensures_process_line, Hrd.
    + intros [r c] [Hr Hc]. apply IH. destruct Hacc as [Ha1 Ha2].
      split; simpl in *; intros Hv; apply blocks_concat; auto.
Qed.

Lemma close_well_delimited (v f : string) (r c : list string) :
  includes_delimited v (r, c) ->
  well_delimited v f (close_requirements v f r, close_constraints v f c).
Proof.
  intros [Hr Hc]. unfold close_requirements, close_constraints.
  split; intros ->; simpl in *.
  - split.
    + destruct r as [|x r]; [left; reflexivity|].
      right. exists (x :: r). split; [discriminate|reflexivity].
    + rewrite andb_false_r. apply Hr. reflexivity.
  - split.
    + rewrite andb_false_r. apply Hc. reflexivity.
    + destruct c as [|x c]; [left; reflexivity|].
      right. exists (x :: c). split; [discriminate|reflexivity].
Qed.

Lemma ensures_resolve_dependencies (d : nat) (f : string)
    (pk ok ik : list string) (v : string) :
  v = "r" \/ v = "c" ->
  ensures (resolve d f pk ok ik v) (well_delimited v f).
Proof.
  revert f v. induction d as [|d IH]; intros f v Hv; simpl.
  - apply ensures_raise.
  - assert (Hnone : well_delimited v f ([], [])).
    { apply (close_well_delimited v f [] []).
      split; intros _; apply blocks_nil. }
    unfold mbind, M_bind, mret, M_ret.
    destruct (String.eqb (Py.strip f) EmptyString).
    { eapply ensures_bind; [apply ensures_true|]. intros _ _.
      apply ensures_ret. exact Hnone. }
    eapply ensures_bind; [apply ensures_true|]. intros _ _.
    eapply ensures_bind; [apply ensures_true|]. intros scheme _.
    eapply (ensures_bind _ _ (includes_delimited v)).
    + assert (Hempty : includes_delimited v ([], [])).
      { split; intros _; apply blocks_nil. }
      destruct (String.eqb scheme EmptyString).
      * eapply ensures_bind; [apply ensures_true|]. intros [|] _.
        -- eapply ensures_bind; [apply ensures_true|]. intros fio _.
           apply ensures_process_io; [|exact Hempty].
           intros f' v' Hv'. apply IH. exact Hv'.
        -- eapply ensures_bind; [apply ensures_true|]. intros _ _.
           apply ensures_ret. exact Hempty.
      * eapply ensures_bind; [apply ensures_true|]. intros fio _.
        apply ensures_process_io; [|exact Hempty].
        intros f' v' Hv'. apply IH. exact Hv'.
    + intros [r c] Hrc. apply ensures_ret.
      exact (close_well_delimited v f r c Hrc).
Qed.

(** *** The cases of [resolve_dependencies] *)

Lemma strip_nonblank (f : string) :
  Py.strip f <> EmptyString -> String.eqb (Py.strip f) EmptyString = false.
Proof. intros H. apply String.eqb_neq. exact H. Qed.

Lemma resolve_missing (d : nat) (f : string) (pk ok ik : list string)
    (v : string) (w : world) :
  Py.strip f <> EmptyString ->
  urlparse_scheme f = Some EmptyString ->
  files w !! f = None ->
  resolve (S d) f pk ok ik v w
  = (Ok ([], []),
     logged w
       [(info, "Read [" +:+ v +:+ "]: " +:+ f);
        (info, "Can not read "
               +:+ (if String.eqb v "r" then "requirements" else "constraints")
               +:+ " file '" +:+ f
               +:+ "', it does not exist. Empty file assumed.")]).
Proof.
  intros Hb Hs Hf. simpl. rewrite (strip_nonblank f Hb).
  unfold mbind, M_bind, mret, M_ret, bind, ret, logger_call, path_exists, logged.
  rewrite Hs. simpl. rewrite Hf. simpl.
  rewrite <- app_assoc. reflexivity.
Qed.

Lemma resolve_local (d : nat) (f text : string) (pk ok ik : list string)
    (v : string) (w : world) :
  Py.strip f <> EmptyString ->
  urlparse_scheme f = Some EmptyString ->
  files w !! f = Some (File text) ->
  resolve (S d) f pk ok ik v w
  = match run_io (resolve d) (map Str (lines_of text)) [] [] pk ok ik v
            (logged w [(info, "Read [" +:+ v +:+ "]: " +:+ f)]) with
    | (Ok (r, c), w') =>
        (Ok (close_requirements v f r, close_constraints v f c), w')
    | (Raise e, w') => (Raise e, w')
    end.
Proof.
  intros Hb Hs Hf. simpl. rewrite (strip_nonblank f Hb).
  unfold mbind, M_bind, mret, M_ret, bind, ret, logger_call, path_exists,
    path_open_r, logged.
  rewrite Hs. simpl. rewrite Hf. simpl. rewrite Hf.
  unfold lines_of.
  destruct (process_io _ _ _ _ _ _ _ _ _ _ _) as [[[r c]|e] w']; reflexivity.
Qed.

(** A file without directives: the block of what the classifier emits for
    its lines. *)
Lemma resolve_plain_file (d : nat) (f text : string) (pk ok ik : list string)
    (v : string) (w : world) :
  Py.strip f <> EmptyString ->
  urlparse_scheme f = Some EmptyString ->
  files w !! f = Some (File text) ->
  Forall (fun line => directive line = false) (lines_of text) ->
  exists w',
    resolve (S d) f pk ok ik v w
    = (Ok (if String.eqb v "c"
           then ([], close_constraints v f
                       (map (emitted Requirement_parse pk ok ik v) (lines_of text)))
           else (close_requirements v f
                   (map (emitted Requirement_parse pk ok ik v) (lines_of text)),
                 [])),
       w')
    /\ same_sources w' w.
Proof.
  intros Hb Hs Hf Hdir.
  rewrite (resolve_local d f text) by assumption.
  destruct (process_io_requirements (resolve d) (map Str (lines_of text))
              (lines_of text) pk ok ik v) with
    (reqs := @nil string) (cons := @nil string)
    (w := logged w [(info, "Read [" +:+ v +:+ "]: " +:+ f)])
    as (w' & Hrun & Hfiles & Hnet).
  { clear. induction (lines_of text); constructor; auto. }
  { exact Hdir. }
  exists w'. rewrite Hrun. split; [|split; assumption].
  unfold close_requirements, close_constraints.
  destruct (String.eqb v "c") eqn:Hv; simpl; reflexivity.
Qed.

(** With no key in any list, the classifier emits every line as it is. *)
Lemma emitted_no_keys (v line : string) :
  emitted Requirement_parse [] [] [] v line = line.
Proof.
  unfold emitted. destruct (Requirement_parse line); [|reflexivity].
  unfold matching_reasons. simpl. rewrite !andb_false_r. reflexivity.
Qed.

(** A [-r] line hands over to [resolve_dependencies], in requirement
    context, with the second field of the line as target. *)
Lemma process_line_include_r (rd : resolver) (l : line) (line t0 t : string)
    (ts : list string) (pk ok ik : list string) (v : string) (w : world) :
  text_of decode_utf8 l = Some line ->
  Py.startswith line "-c" = false ->
  Py.startswith line "-r" = true ->
  Py.split " " line = t0 :: t :: ts ->
  classify rd l pk ok ik v w
  = rd (Py.strip t) pk ok ik "r"
      (logged w [(debug, "Process Line [" +:+ v +:+ "]: " +:+ Py.strip line)]).
Proof.
  intros Ht Hc Hr Hsplit.
  destruct l as [s0|b]; simpl in Ht; [injection Ht as ->|];
    unfold process_line;
    unfold mbind, M_bind, mret, M_ret, bind, ret, logger_call, logged,
      second_field;
    [|rewrite Ht]; cbv beta iota; rewrite Hc, Hr, Hsplit; reflexivity.
Qed.

Lemma path_exists_false (f : string) (w : world) :
  path_exists f w = (Ok false, w) -> files w !! f = None.
Proof.
  unfold path_exists.
  destruct (files w !! f) as [[|text|]|]; [discriminate..|reflexivity].
Qed.

(** C8, as the code has it: a target that is not blank, has no URL scheme
    and for whose path [Path.exists] answers [False] gives no requirements
    and no constraints and raises nothing; the logger receives two [info]
    calls, the second one saying that the file does not exist and is taken
    as empty, and no [warning] call. *)
Theorem missing_file_is_empty (d : nat) (f : string) (pk ok ik : list string)
    (v : string) (w : world) :
  Py.strip f <> EmptyString ->
  urlparse_scheme f = Some EmptyString ->
  path_exists f w = (Ok false, w) ->
  exists w',
    resolve (S d) f pk ok ik v w = (Ok ([], []), w')
    /\ same_sources w' w
    /\ log w'
       = log w
         ++ [(info, "Read [" +:+ v +:+ "]: " +:+ f);
             (info, "Can not read "
                    +:+ (if String.eqb v "r" then "requirements" else "constraints")
                    +:+ " file '" +:+ f
                    +:+ "', it does not exist. Empty file assumed.")].
Proof.
  intros Hb Hs Hf. apply path_exists_false in Hf.
  eexists. split; [apply resolve_missing; assumption|].
  split; [split; reflexivity|reflexivity].
Qed.

Lemma process_io_cons (rd : resolver) (l : line) (fio : list line)
    (reqs cons pk ok ik : list string) (v : string) (w : world) :
  run_io rd (l :: fio) reqs cons pk ok ik v w
  = match classify rd l pk ok ik v w with
    | (Ok (r, c), w') => run_io rd fio (reqs ++ r) (cons ++ c) pk ok ik v w'
    | (Raise e, w') => (Raise e, w')
    end.
Proof.
  simpl. unfold mbind, M_bind, bind.
  destruct (classify rd l pk ok ik v w) as [[[r c]|e] w']; reflexivity.
Qed.

(** C3: an entry point resolved in constraint context that holds the lines
    [-r deps.txt] and [pkg==1.0], where [deps.txt] holds [other==2.0] and
    the three key lists are empty: the requirements are the line
    [other==2.0] between the delimiters that name [deps.txt], the constraints
    the line [pkg==1.0] between the delimiters that name the entry point. *)
Theorem scenario_nested_requirements (d : nat) (entry : string) (w : world) :
  Py.strip entry <> EmptyString ->
  urlparse_scheme entry = Some EmptyString ->
  urlparse_scheme "deps.txt" = Some EmptyString ->
  files w !! entry = Some (File ("-r deps.txt" +:+ nl +:+ "pkg==1.0" +:+ nl)) ->
  files w !! "deps.txt" = Some (File ("other==2.0" +:+ nl)) ->
  fst (resolve (S (S d)) entry [] [] [] "c" w)
  = Ok ([rule;
         "# begin requirements from: deps.txt" +:+ nl +:+ nl;
         "other==2.0" +:+ nl;
         nl;
         "# end requirements from: deps.txt" +:+ nl;
         rule],
        [rule;
         "# begin constraints from: " +:+ entry +:+ nl;
         nl;
         "pkg==1.0" +:+ nl;
         nl;
         "# end constraints from: " +:+ entry +:+ nl;
         rule +:+ nl]).
Proof.
  intros Hb He Hd Hfe Hfd.
  rewrite (resolve_local (S d) entry _ [] [] [] "c" w Hb He Hfe).
  change (lines_of ("-r deps.txt" +:+ nl +:+ "pkg==1.0" +:+ nl))
    with ["-r deps.txt" +:+ nl; "pkg==1.0" +:+ nl].
  set (w1 := logged w _).
  change (map Str _) with [Str ("-r deps.txt" +:+ nl); Str ("pkg==1.0" +:+ nl)].
  rewrite process_io_cons.
  rewrite (process_line_include_r (resolve (S d)) (Str ("-r deps.txt" +:+ nl))
             ("-r deps.txt" +:+ nl) "-r" ("deps.txt" +:+ nl) [])
    by reflexivity.
  change (Py.strip ("deps.txt" +:+ nl)) with "deps.txt".
  set (w2 := logged w1 _).
  destruct (resolve_plain_file d "deps.txt" ("other==2.0" +:+ nl) [] [] [] "r" w2)
    as (w3 & Hrun & Hfiles & Hnet);
    [discriminate | exact Hd | exact Hfd | repeat constructor |].
  rewrite Hrun.
  change (lines_of ("other==2.0" +:+ nl)) with ["other==2.0" +:+ nl].
  cbv beta iota. change ("r" =? "c")%string with false. cbv iota.
  rewrite process_io_cons.
  rewrite (process_line_requirement (resolve (S d)) (Str ("pkg==1.0" +:+ nl))
             ("pkg==1.0" +:+ nl)) by reflexivity.
  simpl. rewrite !emitted_no_keys. reflexivity.
Qed.


(** In requirement context the source rule is the only one: a line whose
    key is a local source is commented out once. *)
Lemma emitted_source (lines : list string) (pk ok ik : list string) :
  Forall (fun line =>
            directive line = false
            /\ exists key, Requirement_parse line = Some key
                           /\ Py.elem key pk = true) lines ->
  map (emitted Requirement_parse pk ok ik "r") lines
  = map (fun line => disabled line ["source"]) lines.
Proof.
  induction 1 as [|line lines [_ (key & Hp & Hk)] _ IH]; [reflexivity|].
  simpl. rewrite IH. f_equal.
  unfold emitted. rewrite Hp. unfold matching_reasons. rewrite Hk. simpl.
  unfold comment_out, disabled. simpl. rewrite !sapp_nil_r. reflexivity.
Qed.

(** C6, as the code has it: whatever [resolve_dependencies] returns, the
    list of the call's variety is empty or is one block between begin and end
    delimiters that name the target, and the other list is made of such
    blocks of the includes; a target that is blank, missing or an empty file
    gives two empty lists, without delimiters; suppressed lines are kept as
    comments, so a file whose lines are all suppressed gives the block of its
    commented-out lines between the delimiters. *)
Theorem blocks_are_delimited (d : nat) (f : string) (pk ok ik : list string)
    (v : string) (w : world) :
  v = "r" \/ v = "c" ->
  (forall r c, fst (resolve d f pk ok ik v w) = Ok (r, c) ->
     well_delimited v f (r, c))
  /\ (Py.strip f = EmptyString
      \/ (urlparse_scheme f = Some EmptyString
          /\ (files w !! f = None \/ files w !! f = Some (File EmptyString))) ->
      fst (resolve (S d) f pk ok ik v w) = Ok ([], []))
  /\ (forall text,
        Py.strip f <> EmptyString ->
        urlparse_scheme f = Some EmptyString ->
        files w !! f = Some (File text) ->
        lines_of text <> [] ->
        Forall (fun line =>
                  directive line = false
                  /\ exists key, Requirement_parse line = Some key
                                 /\ Py.elem key pk = true)
          (lines_of text) ->
        fst (resolve (S d) f pk ok ik v w)
        = Ok (if String.eqb v "c"
              then ([], constraints_block f
                          (map (emitted Requirement_parse pk ok ik v)
                             (lines_of text)))
              else (requirements_block f
                      (map (fun line => disabled line ["source"])
                         (lines_of text)), []))).
Proof.
  intros Hv. split; [|split].
  - intros r c Hrun.
    destruct (resolve d f pk ok ik v w) as [res w'] eqn:Hres.
    simpl in Hrun. subst res.
    exact (ensures_resolve_dependencies d f pk ok ik v Hv w (r, c) w' Hres).
  - intros [Hblank | [Hs Hf]].
    + simpl. rewrite Hblank. reflexivity.
    + destruct (String.eqb (Py.strip f) EmptyString) eqn:Hb.
      { simpl. rewrite Hb. reflexivity. }
      apply String.eqb_neq in Hb.
      destruct Hf as [Hf | Hf].
      * rewrite resolve_missing by assumption. reflexivity.
      * rewrite (resolve_local d f EmptyString) by assumption.
        destruct v; reflexivity.
  - intros text Hb Hs Hf Hne Hsup.
    destruct (resolve_plain_file d f text pk ok ik v w Hb Hs Hf)
      as (w' & Hrun & _).
    { eapply Forall_impl; [exact Hsup|]. intros line [H _]. exact H. }
    rewrite Hrun. simpl.
    destruct Hv as [-> | ->]; simpl.
    + rewrite <- (emitted_source _ pk ok ik Hsup).
      unfold close_requirements.
      destruct (lines_of text); [congruence|reflexivity].
    + unfold close_constraints.
      destruct (lines_of text); [congruence|reflexivity].
Qed.

End PipelineFacts.

(** ** The writer *)

Lemma fio_writelines_join (l : list string) (fio : string) :
  fio_writelines fio l = fio +:+ Py.join l.
Proof.
  unfold fio_writelines. revert fio.
  induction l as [|x l IH]; intros fio; simpl.
  - rewrite sapp_nil_r. reflexivity.
  - rewrite IH. unfold fio_write. rewrite sapp_assoc. reflexivity.
Qed.

(** The loop of [write_dev_overrides] writes one entry for each override, in
    the order of the table. *)
Lemma overrides_loop (pk : list string) (ovs : list (string * string))
    (fio : string) :
  foldl
    (fun fio '(pkg, line) =>
       if Py.elem pkg pk then
         fio_write fio
           ("# " +:+ line
            +:+ " IGNORE mxdev constraint override. Source override wins!"
            +:+ nl)
       else fio_write fio (line +:+ nl))
    fio ovs
  = fio +:+ Py.join (map (override_entry pk) ovs).
Proof.
  revert fio. induction ovs as [|[pkg line] ovs IH]; intros fio; simpl.
  - rewrite sapp_nil_r. reflexivity.
  - rewrite IH. unfold override_entry, fio_write. simpl.
    destruct (Py.elem pkg pk); rewrite sapp_assoc; reflexivity.
Qed.

Lemma write_dev_overrides_section (fio : string) (ovs : list (string * string))
    (pk : list string) :
  ovs <> [] ->
  write_dev_overrides fio ovs pk = fio +:+ overrides_section ovs pk.
Proof.
  intros Hne. unfold write_dev_overrides. rewrite overrides_loop.
  unfold overrides_section, fio_write.
  destruct ovs; [congruence|]. rewrite !sapp_assoc. reflexivity.
Qed.


Lemma bind_logger_call {A} (m : logger_method) (msg : string)
    (k : unit -> M A) (w : world) :
  bind (logger_call m msg) k w = k tt (logged w [(m, msg)]).
Proof. reflexivity. Qed.

Lemma bind_ok {A B} (m : M A) (k : A -> M B) (w w' : world) (a : A) :
  m w = (Ok a, w') -> bind m k w = k a w'.
Proof. intros H. unfold bind. rewrite H. reflexivity. Qed.

(** Leaving the [with] block: the file holds what the block wrote. *)
Lemma with_open_w_runs (p : string) (body : string -> M string) (w w1 : world)
    (text : string) :
  files w !! p <> Some Dir ->
  body EmptyString (World (<[p := File EmptyString]> (files w)) (net w) (log w))
  = (Ok text, w1) ->
  with_open_w p body w
  = (Ok tt, World (<[p := File text]> (files w1)) (net w1) (log w1)).
Proof.
  intros Hp Hbody. unfold with_open_w.
  destruct (files w !! p) as [[|old|]|]; try congruence;
    rewrite Hbody; reflexivity.
Qed.



(** ** Working copies *)

(** C2: a source descriptor that has both a revision and a branch makes
    [checkout] and [update] fail with the configuration error; no operation
    of the adapter is performed (the world is as it was), and neither of the
    two values is used. *)
Theorem revision_and_branch_conflict (d : Vcs.descriptor) (o : Vcs.options)
    (w : Vcs.world) :
  is_Some (Vcs.revision d) -> is_Some (Vcs.branch d) ->
  Vcs.checkout d o w = (inl Vcs.ConfigurationError, w)
  /\ Vcs.update d o w = (inl Vcs.ConfigurationError, w).
Proof.
  intros [r Hr] [b Hb]. unfold Vcs.checkout, Vcs.update, Vcs.validate.
  rewrite Hr, Hb. split; reflexivity.
Qed.

(** ** The primitives on examples *)

Example autocorrect_github :
  autocorrect_pip_url "git@github.com:bluedynamics/mxdev.git"
  = "git+ssh://git@github.com/bluedynamics/mxdev.git".
Proof. reflexivity. Qed.

Example autocorrect_https :
  autocorrect_pip_url "https://github.com/bluedynamics/mxdev.git"
  = "git+https://github.com/bluedynamics/mxdev.git".
Proof. reflexivity. Qed.

Example split_twice : Py.split " " "-r  deps.txt" = ["-r"; EmptyString; "deps.txt"].
Proof. reflexivity. Qed.

Example strip_both_ends :
  Py.strip (" pkg==1.0 " +:+ String CR nl) = "pkg==1.0".
Proof. reflexivity. Qed.

Example lines_of_dos_text :
  lines_of ("a" +:+ String CR nl +:+ "b" +:+ String CR "c")
  = ["a" +:+ nl; "b" +:+ nl; "c"].
Proof. reflexivity. Qed.

Example include_in_requirements :
  fst (sample_resolve "constraints.txt" ["pkg"] [] [] "r" sample_world)
  = Ok (requirements_block "constraints.txt"
          (requirements_block "deps.txt" ["other==2.0" +:+ nl]
           ++ [disabled ("pkg==1.0" +:+ nl) ["source"]]),
        []).
Proof. reflexivity. Qed.

(** ** The statements at work on the examples *)

Lemma revision_and_branch_conflict_witness :
  Vcs.checkout sample_source (Vcs.Options false true) (Vcs.World ∅ [])
  = (inl Vcs.ConfigurationError, Vcs.World ∅ [])
  /\ Vcs.update sample_source (Vcs.Options false true) (Vcs.World ∅ [])
     = (inl Vcs.ConfigurationError, Vcs.World ∅ []).
Proof.
  apply (revision_and_branch_conflict sample_source);
    eexists; reflexivity.
Defined.

Lemma suppression_rules_accumulate_witness :
  fst (process_line sample_parse sample_decode sample_resolve
         (Str ("pkg==1.0" +:+ nl)) ["pkg"] ["pkg"] ["pkg"] "c" sample_world)
  = Ok ([], [disabled ("pkg==1.0" +:+ nl) ["source"; "override"; "ignore"]]).
Proof.
  apply (suppression_rules_accumulate sample_parse sample_decode sample_resolve
           (Str ("pkg==1.0" +:+ nl)) ("pkg==1.0" +:+ nl) "pkg"
           ["pkg"] ["pkg"] ["pkg"] sample_world);
    [reflexivity | reflexivity | reflexivity | simpl; lia].
Defined.

(** Against C1 as it is worded: with the key among the local sources and
    among the overrides, the emitted line does not stop at the first rule; it
    carries both reasons. *)
Lemma first_match_does_not_win :
  fst (process_line sample_parse sample_decode sample_resolve
         (Str ("pkg==1.0" +:+ nl)) ["pkg"] ["pkg"] [] "c" sample_world)
  = Ok ([], ["# # pkg==1.0 -> mxdev disabled (source) -> mxdev disabled (override)"
             +:+ nl])
  /\ fst (process_line sample_parse sample_decode sample_resolve
            (Str ("pkg==1.0" +:+ nl)) ["pkg"] ["pkg"] [] "c" sample_world)
     <> Ok ([], ["# pkg==1.0 -> mxdev disabled (source)" +:+ nl]).
Proof. split; [reflexivity|]. vm_compute. intros H. discriminate H. Qed.

Lemma scenario_nested_requirements_witness :
  fst (resolve_dependencies sample_parse sample_scheme sample_decode 2
         "constraints.txt" [] [] [] "c" sample_world)
  = Ok (requirements_block "deps.txt" ["other==2.0" +:+ nl],
        constraints_block "constraints.txt" ["pkg==1.0" +:+ nl]).
Proof.
  apply (scenario_nested_requirements sample_parse sample_scheme sample_decode
           0 "constraints.txt" sample_world);
    [discriminate | reflexivity | reflexivity | reflexivity | reflexivity].
Defined.

Lemma override_ignore_only_in_constraints_witness :
  fst (process_line sample_parse sample_decode sample_resolve
         (Str ("other==2.0" +:+ nl)) ["pkg"] ["other"] ["other"] "r" sample_world)
  = Ok (["other==2.0" +:+ nl], [])
  /\ fst (process_line sample_parse sample_decode sample_resolve
            (Str ("pkg==1.0" +:+ nl)) ["pkg"] ["other"] ["other"] "r" sample_world)
     = Ok ([disabled ("pkg==1.0" +:+ nl) ["source"]], [])
  /\ fst (process_line sample_parse sample_decode sample_resolve
            (Str ("other==2.0" +:+ nl)) ["pkg"] ["other"] ["other"] "c" sample_world)
     = Ok ([], [disabled ("other==2.0" +:+ nl) ["override"; "ignore"]]).
Proof.
  split; [|split].
  - apply (override_ignore_only_in_constraints sample_parse sample_decode
             sample_resolve (Str ("other==2.0" +:+ nl)) ("other==2.0" +:+ nl)
             "other" ["pkg"] ["other"] ["other"] sample_world);
      reflexivity.
  - apply (override_ignore_only_in_constraints sample_parse sample_decode
             sample_resolve (Str ("pkg==1.0" +:+ nl)) ("pkg==1.0" +:+ nl)
             "pkg" ["pkg"] ["other"] ["other"] sample_world);
      reflexivity.
  - apply (override_ignore_only_in_constraints sample_parse sample_decode
             sample_resolve (Str ("other==2.0" +:+ nl)) ("other==2.0" +:+ nl)
             "other" ["pkg"] ["other"] ["other"] sample_world);
      reflexivity.
Defined.



Lemma blocks_are_delimited_witness :
  fst (resolve_dependencies sample_parse sample_scheme sample_decode 1
         "empty.txt" ["pkg"] [] [] "r" sample_world)
  = Ok ([], [])
  /\ fst (resolve_dependencies sample_parse sample_scheme sample_decode 1
            "requirements.txt" ["pkg"] [] [] "r" sample_world)
     = Ok (requirements_block "requirements.txt"
             [disabled ("pkg==1.0" +:+ nl) ["source"]], []).
Proof.
  destruct (blocks_are_delimited sample_parse sample_scheme sample_decode
              0 "empty.txt" ["pkg"] [] [] "r" sample_world (or_introl eq_refl))
    as (_ & Hempty & _).
  destruct (blocks_are_delimited sample_parse sample_scheme sample_decode
              0 "requirements.txt" ["pkg"] [] [] "r" sample_world
              (or_introl eq_refl))
    as (_ & _ & Hsuppressed).
  split.
  - apply Hempty. right. split; [reflexivity|right; reflexivity].
  - apply (Hsuppressed ("pkg==1.0" +:+ nl));
      [discriminate | reflexivity | reflexivity | discriminate |].
    repeat constructor. exists "pkg". split; reflexivity.
Defined.

(** Against C6 as it is worded: the only line of the file is suppressed, and
    yet the block is returned, between its delimiters. *)
Lemma suppressed_block_keeps_delimiters :
  exists r,
    fst (resolve_dependencies sample_parse sample_scheme sample_decode 1
           "requirements.txt" ["pkg"] [] [] "r" sample_world)
    = Ok (r, [])
    /\ r = [rule;
            "# begin requirements from: requirements.txt" +:+ nl +:+ nl;
            "# pkg==1.0 -> mxdev disabled (source)" +:+ nl;
            nl;
            "# end requirements from: requirements.txt" +:+ nl;
            rule]
    /\ exists l, In l r /\ delimiter l.
Proof.
  eexists. split; [reflexivity|]. split; [reflexivity|].
  exists rule. split; [left; reflexivity|left; reflexivity].
Qed.

Lemma missing_file_is_empty_witness :
  exists w',
    resolve_dependencies sample_parse sample_scheme sample_decode 1
      "missing.txt" [] [] [] "r" sample_world
    = (Ok ([], []), w')
    /\ same_sources w' sample_world
    /\ log w'
       = [(info, "Read [r]: missing.txt");
          (info, "Can not read requirements file 'missing.txt', it does not exist. Empty file assumed.")].
Proof.
  apply (missing_file_is_empty sample_parse sample_scheme sample_decode
           0 "missing.txt" [] [] [] "r" sample_world);
    [discriminate | reflexivity | reflexivity].
Defined.

(** Against C8 as it is worded: the result is empty and nothing is raised,
    but no call of [logger.warning] is made; the message goes through
    [logger.info]. *)
Lemma missing_file_logs_no_warning :
  ~ (exists w',
       resolve_dependencies sample_parse sample_scheme sample_decode 1
         "missing.txt" [] [] [] "r" sample_world
       = (Ok ([], []), w')
       /\ exists msg, In (warning, msg) (log w')).
Proof.
  intros (w' & Hrun & msg & Hin).
  vm_compute in Hrun. injection Hrun as <-.
  simpl in Hin. destruct Hin as [H | [H | []]]; discriminate H.
Qed.


(** * Further properties of the pipeline *)

Lemma split_without_separator (sep : ascii) (s : string) :
  has_char sep s = false -> Py.split sep s = [s].
Proof.
  induction s as [|c s IH]; simpl; [reflexivity|].
  intros H. apply orb_false_elim in H as [Hc Hs].
  rewrite Hc, (IH Hs). reflexivity.
Qed.

Section PipelineEdges.

Variable Requirement_parse : string -> option string.
Variable urlparse_scheme : string -> option string.
Variable decode_utf8 : string -> option string.

Local Abbreviation classify := (process_line Requirement_parse decode_utf8).
Local Abbreviation run_io := (process_io Requirement_parse decode_utf8).
Local Abbreviation resolve :=
  (resolve_dependencies Requirement_parse urlparse_scheme decode_utf8).

(** A directive line hands over to the resolver, with the second field of
    the line, stripped, as target and in the context of the directive. *)
Lemma process_line_include (rd : resolver) (l : line) (line t0 t : string)
    (ts : list string) (pk ok ik : list string) (v : string) (w : world) :
  text_of decode_utf8 l = Some line ->
  directive line = true ->
  Py.split " " line = t0 :: t :: ts ->
  classify rd l pk ok ik v w
  = rd (Py.strip t) pk ok ik (directive_variety line)
      (logged w [(debug, "Process Line [" +:+ v +:+ "]: " +:+ Py.strip line)]).
Proof.
  intros Ht Hd Hsplit. unfold directive_variety.
  assert (Hcase : Py.startswith line "-c" = true
                  \/ (Py.startswith line "-c" = false
                      /\ Py.startswith line "-r" = true)).
  { unfold directive in Hd. destruct (Py.startswith line "-c");
      [left; reflexivity|right; split; [reflexivity|exact Hd]]. }
  destruct l as [s0|b]; simpl in Ht; [injection Ht as ->|];
    unfold process_line;
    unfold mbind, M_bind, mret, M_ret, bind, ret, logger_call, logged,
      second_field;
    [|rewrite Ht]; cbv beta iota;
    (destruct Hcase as [Hc | [Hc Hr]];
     [rewrite Hc, Hsplit; reflexivity|rewrite Hc, Hr, Hsplit; reflexivity]).
Qed.

Lemma resolve_blank (d : nat) (f : string) (pk ok ik : list string)
    (v : string) (w : world) :
  Py.strip f = EmptyString ->
  resolve (S d) f pk ok ik v w
  = (Ok ([], []),
     logged w [(info, "mxdev is configured to run without input requirements!")]).
Proof. intros Hb. simpl. rewrite Hb. reflexivity. Qed.

(** X1: a line that begins with [-c] or [-r] and holds no space has no
    second field: the classifier raises [IndexError], having logged the line,
    and calls no resolver. *)
Theorem directive_without_target_raises (rd : resolver) (l : line)
    (line : string) (pk ok ik : list string) (v : string) (w : world) :
  text_of decode_utf8 l = Some line ->
  directive line = true ->
  has_char " " line = false ->
  classify rd l pk ok ik v w
  = (Raise IndexError,
     logged w [(debug, "Process Line [" +:+ v +:+ "]: " +:+ Py.strip line)]).
Proof.
  intros Ht Hd Hsp.
  assert (Hcase : Py.startswith line "-c" = true
                  \/ (Py.startswith line "-c" = false
                      /\ Py.startswith line "-r" = true)).
  { unfold directive in Hd. destruct (Py.startswith line "-c");
      [left; reflexivity|right; split; [reflexivity|exact Hd]]. }
  pose proof (split_without_separator " " line Hsp) as Hsplit.
  destruct l as [s0|b]; simpl in Ht; [injection Ht as ->|];
    unfold process_line;
    unfold mbind, M_bind, mret, M_ret, bind, ret, logger_call, logged,
      second_field;
    [|rewrite Ht]; cbv beta iota;
    (destruct Hcase as [Hc | [Hc Hr]];
     [rewrite Hc, Hsplit; reflexivity|rewrite Hc, Hr, Hsplit; reflexivity]).
Qed.

(** X2: a directive whose second field is blank, as when two spaces follow
    [-r], includes nothing and raises nothing: the target is resolved as the
    blank target, and only the message about running without input is
    logged. *)
Theorem directive_blank_target_ignored (d : nat) (l : line)
    (line t0 t : string) (ts : list string) (pk ok ik : list string)
    (v : string) (w : world) :
  text_of decode_utf8 l = Some line ->
  directive line = true ->
  Py.split " " line = t0 :: t :: ts ->
  Py.strip t = EmptyString ->
  classify (resolve (S d)) l pk ok ik v w
  = (Ok ([], []),
     logged w
       [(debug, "Process Line [" +:+ v +:+ "]: " +:+ Py.strip line);
        (info, "mxdev is configured to run without input requirements!")]).
Proof.
  intros Ht Hd Hsplit Hblank.
  rewrite (process_line_include (resolve (S d)) l line t0 t ts) by assumption.
  rewrite Hblank. rewrite resolve_blank by reflexivity.
  unfold logged. simpl. rewrite <- app_assoc. reflexivity.
Qed.

(** X3: what a directive line yields is what resolving its target yields in
    the context of the directive, [-c] or [-r]; the context of the file that
    holds the line has no part in it. *)
Theorem directive_forces_context (d : nat) (l : line) (line t0 t : string)
    (ts : list string) (pk ok ik : list string) (v : string) (w : world) :
  text_of decode_utf8 l = Some line ->
  directive line = true ->
  Py.split " " line = t0 :: t :: ts ->
  fst (classify (resolve d) l pk ok ik v w)
  = fst (resolve d (Py.strip t) pk ok ik (directive_variety line) w).
Proof.
  intros Ht Hd Hsplit.
  rewrite (process_line_include (resolve d) l line t0 t ts) by assumption.
  apply (reader_resolve_dependencies Requirement_parse urlparse_scheme
           decode_utf8 d (Py.strip t) pk ok ik (directive_variety line)).
  split; reflexivity.
Qed.

(** X4: a target without URL scheme that names a directory is not taken for
    a missing file: opening it raises [IsADirectoryError]. *)
Theorem directory_target_raises (d : nat) (f : string) (pk ok ik : list string)
    (v : string) (w : world) :
  Py.strip f <> EmptyString ->
  urlparse_scheme f = Some EmptyString ->
  files w !! f = Some Dir ->
  resolve (S d) f pk ok ik v w
  = (Raise IsADirectoryError,
     logged w [(info, "Read [" +:+ v +:+ "]: " +:+ f)]).
Proof.
  intros Hb Hs Hf. simpl. rewrite (strip_nonblank f Hb).
  unfold mbind, M_bind, mret, M_ret, bind, ret, logger_call, path_exists,
    path_open_r, logged.
  rewrite Hs. simpl. rewrite Hf. simpl. rewrite Hf. reflexivity.
Qed.

(** X23: when the system refuses to examine the path of a target without
    URL scheme, so that [Path.exists] raises [OSError] instead of answering,
    the error is not taken for a missing file: it leaves
    [resolve_dependencies] after the message that announces the read,
    and no empty file is assumed. *)
Theorem unexaminable_target_raises (d : nat) (f : string)
    (pk ok ik : list string) (v : string) (w : world) :
  Py.strip f <> EmptyString ->
  urlparse_scheme f = Some EmptyString ->
  path_exists f w = (Raise OSError, w) ->
  resolve (S d) f pk ok ik v w
  = (Raise OSError, logged w [(info, "Read [" +:+ v +:+ "]: " +:+ f)]).
Proof.
  intros Hb Hs Hf.
  assert (Hnode : files w !! f = Some Unexaminable).
  { revert Hf. unfold path_exists.
    destruct (files w !! f) as [[|text|]|];
      [discriminate..|reflexivity|discriminate]. }
  simpl. rewrite (strip_nonblank f Hb).
  unfold mbind, M_bind, mret, M_ret, bind, ret, logger_call, path_exists, logged.
  rewrite Hs. simpl. rewrite Hnode. reflexivity.
Qed.

(** X5: a target with a URL scheme is fetched, never looked up among the
    files, and a fetch that fails is fatal: where a missing local file gives
    an empty result, a missing remote document raises. *)
Theorem remote_failure_is_fatal (d : nat) (u scheme : string)
    (pk ok ik : list string) (v : string) (w : world) :
  Py.strip u <> EmptyString ->
  urlparse_scheme u = Some scheme ->
  scheme <> EmptyString ->
  net w !! u = None ->
  resolve (S d) u pk ok ik v w
  = (Raise URLError, logged w [(info, "Read [" +:+ v +:+ "]: " +:+ u)]).
Proof.
  intros Hb Hs Hne Hn. simpl. rewrite (strip_nonblank u Hb).
  unfold mbind, M_bind, mret, M_ret, bind, ret, logger_call, urlopen, logged.
  rewrite Hs. apply String.eqb_neq in Hne. rewrite Hne. simpl. rewrite Hn.
  reflexivity.
Qed.

(** X6: the loop only extends the two lists it is given: what it returns is
    the given lists followed by what it would have returned from empty lists,
    and what was in the lists has no bearing on exceptions or on the log. *)
Theorem process_io_extends (rd : resolver) (fio : list line)
    (reqs cons pk ok ik : list string) (v : string) (w : world) :
  run_io rd fio reqs cons pk ok ik v w
  = match run_io rd fio [] [] pk ok ik v w with
    | (Ok (r, c), w') => (Ok (reqs ++ r, cons ++ c), w')
    | (Raise e, w') => (Raise e, w')
    end.
Proof.
  revert reqs cons w. induction fio as [|l fio IH]; intros reqs cons w.
  - simpl. rewrite !app_nil_r. reflexivity.
  - rewrite !process_io_cons.
    destruct (classify rd l pk ok ik v w) as [[[r c]|e] w1]; [|reflexivity].
    rewrite (IH (reqs ++ r) (cons ++ c)), (IH ([] ++ r) ([] ++ c)).
    destruct (run_io rd fio [] [] pk ok ik v w1) as [[[r' c']|e] w2];
      [|reflexivity].
    simpl. rewrite <- !app_assoc. reflexivity.
Qed.

(** The loop over two streams, one after the other. *)
Lemma process_io_app (rd : resolver) (fio1 fio2 : list line)
    (reqs cons pk ok ik : list string) (v : string) (w : world) :
  run_io rd (fio1 ++ fio2) reqs cons pk ok ik v w
  = match run_io rd fio1 reqs cons pk ok ik v w with
    | (Ok (r, c), w') => run_io rd fio2 r c pk ok ik v w'
    | (Raise e, w') => (Raise e, w')
    end.
Proof.
  revert reqs cons w. induction fio1 as [|l fio1 IH]; intros reqs cons w.
  - reflexivity.
  - rewrite <- app_comm_cons, !process_io_cons.
    destruct (classify rd l pk ok ik v w) as [[[r c]|e] w1]; [|reflexivity].
    apply IH.
Qed.

(** X7: lines are processed in order and the first exception ends the loop:
    over two streams one after the other, the loop does the first, and then,
    unless that raised, the second from the lists and the world the first
    left. *)
Theorem process_io_in_order (rd : resolver) (fio1 fio2 : list line)
    (reqs cons pk ok ik : list string) (v : string) (w : world) :
  run_io rd (fio1 ++ fio2) reqs cons pk ok ik v w
  = match run_io rd fio1 reqs cons pk ok ik v w with
    | (Ok (r, c), w') => run_io rd fio2 r c pk ok ik v w'
    | (Raise e, w') => (Raise e, w')
    end.
Proof. apply process_io_app. Qed.


(** *** What is logged *)

Lemma quiet_ret {A} (a : A) : quiet (ret a).
Proof. intros w. exists []. simpl. rewrite app_nil_r. split; constructor. Qed.

Lemma quiet_raise {A} (e : exn) : quiet (@raise A e).
Proof. intros w. exists []. simpl. rewrite app_nil_r. split; constructor. Qed.

Lemma quiet_bind {A B} (m : M A) (k : A -> M B) :
  quiet m -> (forall a, quiet (k a)) -> quiet (bind m k).
Proof.
  intros Hm Hk w. destruct (Hm w) as (c1 & H1 & F1). unfold bind.
  destruct (m w) as [[a|e] w1]; simpl in H1.
  - destruct (Hk a w1) as (c2 & H2 & F2). exists (c1 ++ c2).
    rewrite H2, H1, <- app_assoc. split; [reflexivity|].
    apply Forall_app. split; assumption.
  - exists c1. split; assumption.
Qed.

Lemma quiet_logger_call (m : logger_method) (msg : string) :
  m = debug \/ m = info -> quiet (logger_call m msg).
Proof.
  intros Hm w. exists [(m, msg)]. split; [reflexivity|].
  constructor; [exact Hm|constructor].
Qed.

Lemma quiet_unlogged {A} (m : M A) :
  (forall w, log (snd (m w)) = log w) -> quiet m.
Proof.
  intros H w. exists []. rewrite H, app_nil_r. split; constructor.
Qed.

Lemma quiet_process_line (rd : resolver) (l : line) (pk ok ik : list string)
    (v : string) :
  (forall f v', quiet (rd f pk ok ik v')) ->
  quiet (classify rd l pk ok ik v).
Proof.
  intros Hrd. unfold process_line, mbind, M_bind, mret, M_ret.
  apply quiet_bind.
  { destruct l as [s0|b]; [apply quiet_ret|].
    destruct (decode_utf8 b); [apply quiet_ret|apply quiet_raise]. }
  intros line. apply quiet_bind; [apply quiet_logger_call; left; reflexivity|].
  intros _.
  assert (Hfield : quiet (second_field line)).
  { unfold second_field. destruct (Py.split " " line) as [|? [|? ?]];
      first [apply quiet_ret | apply quiet_raise]. }
  destruct (Py.startswith line "-c").
  { apply quiet_bind; [exact Hfield|]. intros t. apply Hrd. }
  destruct (Py.startswith line "-r").
  { apply quiet_bind; [exact Hfield|]. intros t. apply Hrd. }
  destruct (String.eqb v "c"); apply quiet_ret.
Qed.

Lemma quiet_process_io (rd : resolver) (fio : list line)
    (pk ok ik : list string) (v : string) :
  (forall f v', quiet (rd f pk ok ik v')) ->
  forall reqs cons, quiet (run_io rd fio reqs cons pk ok ik v).
Proof.
  intros Hrd. induction fio as [|l fio IH]; intros reqs cons; simpl.
  - apply quiet_ret.
  - unfold mbind, M_bind. apply quiet_bind.
    + apply quiet_process_line, Hrd.
    + intros [r c]. apply IH.
Qed.

Lemma quiet_resolve_dependencies (d : nat) (f : string)
    (pk ok ik : list string) (v : string) :
  quiet (resolve d f pk ok ik v).
Proof.
  revert f v. induction d as [|d IH]; intros f v; simpl.
  - apply quiet_raise.
  - unfold mbind, M_bind, mret, M_ret.
    destruct (String.eqb (Py.strip f) EmptyString).
    { apply quiet_bind; [apply quiet_logger_call; right; reflexivity|].
      intros _. apply quiet_ret. }
    apply quiet_bind; [apply quiet_logger_call; right; reflexivity|]. intros _.
    apply quiet_bind.
    { destruct (urlparse_scheme f); [apply quiet_ret|apply quiet_raise]. }
    intros scheme. apply quiet_bind; [|intros [r c]; apply quiet_ret].
    destruct (String.eqb scheme EmptyString).
    + apply quiet_bind.
      { apply quiet_unlogged. intros w. unfold path_exists.
        destruct (files w !! f) as [[|text|]|]; reflexivity. }
      intros [|].
      * apply quiet_bind.
        { apply quiet_unlogged. intros w. unfold path_open_r.
          destruct (files w !! f) as [[|text|]|]; reflexivity. }
        intros fio. apply quiet_process_io. intros f' v'. apply IH.
      * apply quiet_bind; [apply quiet_logger_call; right; reflexivity|].
        intros _. apply quiet_ret.
    + apply quiet_bind.
      { apply quiet_unlogged. intros w. unfold urlopen.
        destruct (net w !! f); reflexivity. }
      intros fio. apply quiet_process_io. intros f' v'. apply IH.
Qed.

(** X10: whatever the target and however the run ends, the resolution keeps
    what was logged before and adds calls of [logger.debug] and [logger.info]
    only: it never logs a warning or an error, not even when it raises. *)
Theorem resolution_logs_debug_and_info_only (d : nat) (f : string)
    (pk ok ik : list string) (v : string) (w : world) :
  exists calls,
    log (snd (resolve d f pk ok ik v w)) = log w ++ calls
    /\ Forall (fun call => fst call = debug \/ fst call = info) calls.
Proof. apply quiet_resolve_dependencies. Qed.

(** *** No directive reaches the output *)



Lemma ensures_impl {A} (m : M A) (P Q : A -> Prop) :
  ensures m P -> (forall a, P a -> Q a) -> ensures m Q.
Proof. intros Hm HPQ w a w' H. apply HPQ. exact (Hm w a w' H). Qed.






(** *** Remote documents and other varieties *)

Lemma resolve_remote (d : nat) (u scheme body : string)
    (pk ok ik : list string) (v : string) (w : world) :
  Py.strip u <> EmptyString ->
  urlparse_scheme u = Some scheme ->
  scheme <> EmptyString ->
  net w !! u = Some body ->
  resolve (S d) u pk ok ik v w
  = match run_io (resolve d) (map Bytes (iter_lines body)) [] [] pk ok ik v
            (logged w [(info, "Read [" +:+ v +:+ "]: " +:+ u)]) with
    | (Ok (r, c), w') =>
        (Ok (close_requirements v u r, close_constraints v u c), w')
    | (Raise e, w') => (Raise e, w')
    end.
Proof.
  intros Hb Hs Hne Hn. simpl. rewrite (strip_nonblank u Hb).
  unfold mbind, M_bind, mret, M_ret, bind, ret, logger_call, urlopen, logged.
  rewrite Hs. apply String.eqb_neq in Hne. rewrite Hne. simpl. rewrite Hn.
  destruct (process_io _ _ _ _ _ _ _ _ _ _ _) as [[[r c]|e] w']; reflexivity.
Qed.

(** X12: a remote document is read as octets: its lines end at the line
    feed only, a carriage return before it stays in the line, and each line
    is decoded on its own.  When all its lines decode and none is a
    directive, the document resolves like a file: to what the classifier
    emits for the decoded lines, between the delimiters that name the URL. *)
Theorem remote_document_resolves (d : nat) (u scheme body : string)
    (lines : list string) (pk ok ik : list string) (v : string) (w : world) :
  Py.strip u <> EmptyString ->
  urlparse_scheme u = Some scheme ->
  scheme <> EmptyString ->
  net w !! u = Some body ->
  Forall2 (fun octets line => decode_utf8 octets = Some line)
    (iter_lines body) lines ->
  Forall (fun line => directive line = false) lines ->
  exists w',
    resolve (S d) u pk ok ik v w
    = (Ok (if String.eqb v "c"
           then ([], close_constraints v u
                       (map (emitted Requirement_parse pk ok ik v) lines))
           else (close_requirements v u
                   (map (emitted Requirement_parse pk ok ik v) lines), [])),
       w')
    /\ same_sources w' w.
Proof.
  intros Hb Hs Hne Hn Hdec Hdir.
  rewrite (resolve_remote d u scheme body) by assumption.
  destruct (process_io_requirements Requirement_parse decode_utf8 (resolve d)
              (map Bytes (iter_lines body)) lines pk ok ik v)
    with (reqs := @nil string) (cons := @nil string)
         (w := logged w [(info, "Read [" +:+ v +:+ "]: " +:+ u)])
    as (w' & Hrun & Hfiles & Hnet); [|exact Hdir|].
  { clear -Hdec. induction Hdec; constructor; auto. }
  exists w'. rewrite Hrun. split; [|split; assumption].
  destruct (String.eqb v "c"); simpl; reflexivity.
Qed.

(** X13: a variety that is neither ["r"] nor ["c"] gets the treatment of
    requirements without the delimiters: the lines of a file without
    directives come back in the first list, suppressed by the source rule
    alone, and no begin or end line is added. *)
Theorem other_variety_is_not_delimited (d : nat) (f text : string)
    (pk ok ik : list string) (v : string) (w : world) :
  v <> "r" -> v <> "c" ->
  Py.strip f <> EmptyString ->
  urlparse_scheme f = Some EmptyString ->
  files w !! f = Some (File text) ->
  Forall (fun line => directive line = false) (lines_of text) ->
  fst (resolve (S d) f pk ok ik v w)
  = Ok (map (emitted Requirement_parse pk ok ik "r") (lines_of text), []).
Proof.
  intros Hr Hc Hb Hs Hf Hdir.
  destruct (resolve_plain_file Requirement_parse urlparse_scheme decode_utf8
              d f text pk ok ik v w Hb Hs Hf Hdir) as (w' & Hrun & _).
  rewrite Hrun. simpl.
  apply String.eqb_neq in Hr, Hc. rewrite Hc.
  unfold close_requirements. rewrite Hr, andb_false_r.
  do 2 f_equal. apply map_ext. intros line.
  unfold emitted, matching_reasons. rewrite Hc. reflexivity.
Qed.

(** X14: [read] resolves the entry point of the configuration in
    requirement context, whatever variety it is given.  When it returns, the
    configuration is the one it was given, the requirements of the state are
    empty or one block between the delimiters that name the entry point, the
    constraints are the blocks of the [-c] includes, and neither files nor
    remote documents have changed. *)
Theorem read_result (d : nat) (state state' : State) (v : string)
    (w w' : world) :
  read Requirement_parse urlparse_scheme decode_utf8 d state v w
  = (Ok state', w') ->
  configuration state' = configuration state
  /\ wrapped requirements_block (infile (configuration state))
       (requirements state')
  /\ blocks constraints_block (constraints state')
  /\ same_sources w' w
  /\ read Requirement_parse urlparse_scheme decode_utf8 d state "c" w
     = (Ok state', w').
Proof.
  unfold read, mbind, M_bind, mret, M_ret, bind, ret. intros Hrun.
  pose proof (ensures_resolve_dependencies Requirement_parse urlparse_scheme
                decode_utf8 d (infile (configuration state))
                (package_keys (configuration state))
                (override_keys (configuration state))
                (ignore_keys (configuration state)) "r"
                (or_introl eq_refl) w) as Hshape.
  destruct (reader_resolve_dependencies Requirement_parse urlparse_scheme
              decode_utf8 d (infile (configuration state))
              (package_keys (configuration state))
              (override_keys (configuration state))
              (ignore_keys (configuration state)) "r" w w)
    as [_ Hsrc]; [split; reflexivity|].
  destruct (resolve d _ _ _ _ "r" w) as [[[r c]|e] w1]; [|discriminate Hrun].
  injection Hrun as <- <-. simpl.
  destruct (Hshape (r, c) w1 eq_refl) as [Hr _].
  destruct (Hr eq_refl) as [Hreq Hcons].
  repeat split; try assumption; apply Hsrc.
Qed.

End PipelineEdges.

(** * Further properties of the writer *)

Lemma logged_logged (w : world) (c1 c2 : list (logger_method * string)) :
  logged (logged w c1) c2 = logged w (c1 ++ c2).
Proof. unfold logged. simpl. rewrite <- app_assoc. reflexivity. Qed.

Lemma logged_nil (w : world) : logged w [] = w.
Proof. destruct w. unfold logged. simpl. rewrite app_nil_r. reflexivity. Qed.

Lemma installed_cons (name : string) (pkg : package)
    (pkgs : list (string * package)) :
  installed ((name, pkg) :: pkgs)
  = if String.eqb (install_mode pkg) "skip" then installed pkgs
    else (name, pkg) :: installed pkgs.
Proof.
  unfold installed. simpl.
  destruct (String.eqb (install_mode pkg) "skip"); reflexivity.
Qed.

(** What [write_dev_sources] writes and logs. *)
Lemma write_dev_sources_runs_to (pkgs : list (string * package)) (fio : string)
    (w : world) :
  write_dev_sources fio pkgs w
  = (Ok (fio +:+ sources_section pkgs), logged w (announced pkgs)).
Proof.
  unfold write_dev_sources.
  set (step := fun (acc : M string) '(name, package) => _).
  assert (Hloop : forall (acc : M string) t0 c0,
            (forall w0, acc w0 = (Ok t0, logged w0 c0)) ->
            forall w0,
              foldl step acc pkgs w0
              = (Ok (t0 +:+ Py.join (map (fun np => editable_entry (fst np) (snd np))
                                       (installed pkgs))),
                 logged w0 (c0 ++ announced pkgs))).
  { induction pkgs as [|[name pkg] pkgs IH]; intros acc t0 c0 Hacc w0.
    - simpl. rewrite Hacc, sapp_nil_r, app_nil_r. reflexivity.
    - change (foldl step acc ((name, pkg) :: pkgs) w0)
        with (foldl step (step acc (name, pkg)) pkgs w0).
      assert (Hstep : forall w1,
                step acc (name, pkg) w1
                = if String.eqb (install_mode pkg) "skip"
                  then (Ok t0, logged w1 c0)
                  else (Ok (t0 +:+ editable_entry name pkg),
                        logged w1
                          (c0 ++ [(debug, "-> " +:+ Py.strip
                                            (editable_entry name pkg))]))).
      { intros w1. unfold step.
        unfold mbind, M_bind, mret, M_ret, bind, ret, logger_call.
        cbv beta iota. rewrite Hacc.
        destruct (String.eqb (install_mode pkg) "skip"); [reflexivity|].
        unfold logged, fio_write, editable_entry. simpl.
        rewrite <- app_assoc. rewrite !sapp_assoc. reflexivity. }
      unfold announced. rewrite installed_cons.
      destruct (String.eqb (install_mode pkg) "skip").
      + apply IH. exact Hstep.
      + rewrite (IH _ _ _ Hstep). unfold announced. simpl.
        rewrite sapp_assoc, <- app_assoc. reflexivity. }
  match goal with
  | |- context [foldl step (mret ?t0) pkgs] =>
      pose proof (Hloop (mret t0) t0 []
                    (fun w0 => f_equal (pair (Ok t0)) (eq_sym (logged_nil w0))) w)
        as Hrun
  end.
  unfold mbind, M_bind, bind. rewrite Hrun.
  unfold mret, M_ret, ret, fio_write, sources_section. simpl.
  rewrite !sapp_assoc. reflexivity.
Qed.

(** X15: [write_dev_sources] raises nothing and adds the section of the
    development sources to what the file holds: the header, then one
    editable entry for each package whose install mode is not [skip], in the
    order of the table, with its subdirectory and its extras when it has
    them, then an empty line.  Each entry written is announced by one call of
    [logger.debug]; a skipped package leaves no trace. *)
Theorem write_dev_sources_text (pkgs : list (string * package)) (fio : string)
    (w : world) :
  write_dev_sources fio pkgs w
  = (Ok (fio +:+ sources_section pkgs), logged w (announced pkgs)).
Proof. apply write_dev_sources_runs_to. Qed.

Lemma constraints_body_text (state : State) :
  match overrides (configuration state) with
  | [] => fio_writelines EmptyString (constraints state)
  | _ :: _ =>
      write_dev_overrides (fio_writelines EmptyString (constraints state))
        (overrides (configuration state)) (package_keys (configuration state))
  end
  = constraints_text state.
Proof.
  unfold constraints_text. rewrite fio_writelines_join, sapp_nil_l.
  destruct (overrides (configuration state)) eqn:Hov.
  - simpl. rewrite sapp_nil_r. reflexivity.
  - rewrite write_dev_overrides_section by discriminate. reflexivity.
Qed.

Lemma requirements_body_text (state : State) (w : world) :
  (let fio := fio_write EmptyString (Py.mul "#" 79 +:+ nl) in
   let fio := fio_write fio ("# mxdev combined constraints" +:+ nl) in
   let fio :=
     fio_write fio
       ("-c " +:+ out_constraints (configuration state) +:+ nl +:+ nl) in
   bind (write_dev_sources fio (packages (configuration state)))
     (fun fio => ret (fio_writelines fio (requirements state)))) w
  = (Ok (requirements_text state),
     logged w (announced (packages (configuration state)))).
Proof.
  cbv zeta. erewrite bind_ok by apply write_dev_sources_runs_to.
  unfold ret, requirements_text, fio_write.
  rewrite fio_writelines_join, sapp_nil_l, !sapp_assoc. reflexivity.
Qed.

(** The calls of the logger over a whole run of [write]. *)
Lemma write_runs (state : State) (w : world) :
  files w !! out_constraints (configuration state) <> Some Dir ->
  (out_requirements (configuration state) = out_constraints (configuration state)
   \/ files w !! out_requirements (configuration state) <> Some Dir) ->
  write state w
  = (Ok tt,
     World
       (<[out_requirements (configuration state)
          := File (requirements_text state)]>
          (<[out_constraints (configuration state)
             := File (constraints_text state)]> (files w)))
       (net w)
       (log w ++ write_banner state
        ++ [(info, "Write [r]: " +:+ out_requirements (configuration state))]
        ++ announced (packages (configuration state)))).
Proof.
  intros Hc Hr. unfold write, mbind, M_bind.
  rewrite !bind_logger_call, !logged_logged.
  erewrite bind_ok; cycle 1.
  { apply with_open_w_runs; [exact Hc|].
    unfold mret, M_ret, ret. rewrite constraints_body_text. reflexivity. }
  rewrite bind_logger_call.
  erewrite with_open_w_runs; cycle 1.
  { simpl. rewrite insert_insert_eq.
    destruct Hr as [Heq | Hr].
    - rewrite Heq, lookup_insert_eq. discriminate.
    - destruct (decide (out_constraints (configuration state)
                        = out_requirements (configuration state))) as [Heq|Hne].
      + rewrite Heq, lookup_insert_eq. discriminate.
      + rewrite lookup_insert_ne by exact Hne. exact Hr. }
  { unfold mret, M_ret. apply requirements_body_text. }
  unfold logged, write_banner. simpl.
  rewrite !insert_insert_eq, <- !app_assoc. reflexivity.
Qed.

(** The run of [write] when the constraints path is a directory. *)
Lemma write_constraints_directory (state : State) (w : world) :
  files w !! out_constraints (configuration state) = Some Dir ->
  write state w = (Raise IsADirectoryError, logged w (write_banner state)).
Proof.
  intros Hc. unfold write, mbind, M_bind.
  rewrite !bind_logger_call, !logged_logged.
  unfold bind, with_open_w. simpl. rewrite Hc. reflexivity.
Qed.

(** X17: when the constraints path is a directory, [write] raises
    [IsADirectoryError] before it writes anything: the world is as it was,
    but for the three calls of the logger that come first. *)
Theorem write_fails_before_writing (state : State) (w : world) :
  files w !! out_constraints (configuration state) = Some Dir ->
  write state w = (Raise IsADirectoryError, logged w (write_banner state)).
Proof. apply write_constraints_directory. Qed.


Lemma directory_or_not (o : option node) : o = Some Dir \/ o <> Some Dir.
Proof. destruct o as [[|text|]|]; [left; reflexivity|right..]; discriminate. Qed.

(** The run of [write] when the constraints file can be written and the
    requirements path, another one, is a directory. *)
Lemma write_requirements_directory (state : State) (w : world) :
  files w !! out_constraints (configuration state) <> Some Dir ->
  out_requirements (configuration state) <> out_constraints (configuration state) ->
  files w !! out_requirements (configuration state) = Some Dir ->
  exists w', write state w = (Raise IsADirectoryError, w').
Proof.
  intros Hc Hne Hr. unfold write, mbind, M_bind.
  rewrite !bind_logger_call, !logged_logged.
  erewrite bind_ok; cycle 1.
  { apply with_open_w_runs; [exact Hc|].
    unfold mret, M_ret, ret. rewrite constraints_body_text. reflexivity. }
  rewrite bind_logger_call.
  unfold bind, with_open_w. simpl.
  rewrite !lookup_insert_ne by congruence. rewrite Hr.
  eexists. reflexivity.
Qed.

(** X16: whenever [write] returns without raising, the requirements file
    holds the reference to the constraints file, the section of the
    development sources and the requirement lines, in this order, and nothing
    of what it held before.  This holds also when both outputs are the same
    path: the file then holds the requirements text only, the constraints
    written first being overwritten. *)
Theorem requirements_file_written (state : State) (w w' : world) :
  write state w = (Ok tt, w') ->
  files w' !! out_requirements (configuration state)
  = Some (File (requirements_text state)).
Proof.
  intros Hrun.
  destruct (directory_or_not (files w !! out_constraints (configuration state)))
    as [Hc|Hc].
  { rewrite (write_constraints_directory state w Hc) in Hrun. discriminate Hrun. }
  assert (Hr : out_requirements (configuration state)
               = out_constraints (configuration state)
               \/ files w !! out_requirements (configuration state) <> Some Dir).
  { destruct (decide (out_requirements (configuration state)
                      = out_constraints (configuration state))) as [Heq|Hne];
      [left; exact Heq|].
    destruct (directory_or_not (files w !! out_requirements (configuration state)))
      as [Hdir|Hdir]; [|right; exact Hdir].
    destruct (write_requirements_directory state w Hc Hne Hdir) as [w1 Hfail].
    rewrite Hfail in Hrun. discriminate Hrun. }
  rewrite (write_runs state w Hc Hr) in Hrun.
  injection Hrun as <-. simpl. apply lookup_insert_eq.
Qed.

(** X19: however [write] ends, it touches nothing but its two output paths:
    every other path holds what it held, and the remote documents are as they
    were. *)
Theorem write_touches_outputs_only (state : State) (w w' : world)
    (res : result unit) (p : string) :
  write state w = (res, w') ->
  p <> out_constraints (configuration state) ->
  p <> out_requirements (configuration state) ->
  files w' !! p = files w !! p /\ net w' = net w.
Proof.
  intros Hrun Hpc Hpr.
  destruct (directory_or_not (files w !! out_constraints (configuration state)))
    as [Hc|Hc].
  { rewrite (write_constraints_directory state w Hc) in Hrun.
    injection Hrun as _ <-. split; reflexivity. }
  destruct (decide (out_requirements (configuration state)
                    = out_constraints (configuration state))) as [Heq|Hne].
  { rewrite (write_runs state w Hc (or_introl Heq)) in Hrun.
    injection Hrun as _ <-. simpl.
    rewrite !lookup_insert_ne by congruence. split; reflexivity. }
  destruct (directory_or_not (files w !! out_requirements (configuration state)))
    as [Hr|Hr].
  - revert Hrun. unfold write, mbind, M_bind.
    rewrite !bind_logger_call, !logged_logged.
    erewrite bind_ok; cycle 1.
    { apply with_open_w_runs; [exact Hc|].
      unfold mret, M_ret, ret. rewrite constraints_body_text. reflexivity. }
    rewrite bind_logger_call.
    unfold bind, with_open_w. simpl.
    rewrite !lookup_insert_ne by congruence. rewrite Hr.
    intros Hrun. injection Hrun as _ <-. simpl.
    rewrite !lookup_insert_ne by congruence. split; reflexivity.
  - rewrite (write_runs state w Hc (or_intror Hr)) in Hrun.
    injection Hrun as _ <-. simpl.
    rewrite !lookup_insert_ne by congruence. split; reflexivity.
Qed.


(** * Further properties of [autocorrect_pip_url] *)

Lemma replace_removes (a b : ascii) (s : string) :
  a <> b -> has_char a (Py.replace a b s) = false.
Proof.
  intros Hab. induction s as [|c s IH]; [reflexivity|]. simpl.
  rewrite IH, orb_false_r.
  destruct (Ascii.eqb c a) eqn:Hc.
  - apply Ascii.eqb_neq. congruence.
  - exact Hc.
Qed.

Lemma replace_length (a b : ascii) (s : string) :
  String.length (Py.replace a b s) = String.length s.
Proof. induction s as [|c s IH]; simpl; congruence. Qed.

Lemma replace_keeps_prefix (a b : ascii) (p s : string) :
  has_char a p = false ->
  Py.startswith s p = true -> Py.startswith (Py.replace a b s) p = true.
Proof.
  revert s. induction p as [|x p IH]; intros s Hp Hs; [reflexivity|].
  destruct s as [|c s]; [discriminate Hs|]. simpl in *.
  apply orb_false_elim in Hp as [Hx Hp].
  apply andb_prop in Hs as [Hxc Hs].
  apply Ascii.eqb_eq in Hxc. subst c. rewrite Hx, Ascii.eqb_refl.
  simpl. apply IH; assumption.
Qed.

(** Character by character, [replace] leaves a string as it is but for the
    occurrences of the one character, which become the other. *)
Lemma replace_get (a b : ascii) (s : string) (i : nat) :
  String.get i (Py.replace a b s)
  = option_map (fun c => if Ascii.eqb c a then b else c) (String.get i s).
Proof.
  revert i. induction s as [|c s IH]; intros i; [reflexivity|].
  destruct i as [|i]; simpl; [reflexivity|apply IH].
Qed.

(** X21: for a URL that begins with [git@], the correction puts
    [git+ssh://] before the URL and turns every colon of the URL into a
    slash, not only the one after the host, and changes nothing else: what
    follows the new prefix has, at every position, the character of the URL,
    or a slash where the URL has a colon; so it has the length of the URL,
    still begins with [git@] and holds no colon. *)
Theorem autocorrect_scp_style (s : string) :
  Py.startswith s "git@" = true ->
  exists t,
    autocorrect_pip_url s = "git+ssh://" +:+ t
    /\ (forall i,
          String.get i t
          = option_map (fun c => if Ascii.eqb c ":" then "/"%char else c)
              (String.get i s))
    /\ String.length t = String.length s
    /\ Py.startswith t "git@" = true
    /\ has_char ":" t = false.
Proof.
  intros Hs. exists (Py.replace ":" "/" s).
  unfold autocorrect_pip_url. rewrite Hs.
  split; [reflexivity|]. split; [intros i; apply replace_get|].
  split; [apply replace_length|].
  split; [apply replace_keeps_prefix; [reflexivity|exact Hs]|].
  apply replace_removes. discriminate.
Qed.

(** X22: the URLs that [autocorrect_pip_url] returns unchanged are exactly
    those that begin with none of [git@], [ssh://] and [https://]; an
    [http://] URL, for one, is not corrected. *)
Theorem autocorrect_unchanged_iff (s : string) :
  autocorrect_pip_url s = s
  <-> Py.startswith s "git@" = false
      /\ Py.startswith s "ssh://" = false
      /\ Py.startswith s "https://" = false.
Proof.
  split.
  - intros Hfix.
    assert (Hplus : forall t, s = "git+" +:+ t ->
              Py.startswith s "git@" = false
              /\ Py.startswith s "ssh://" = false
              /\ Py.startswith s "https://" = false).
    { intros t ->. repeat split; reflexivity. }
    revert Hfix. unfold autocorrect_pip_url.
    destruct (Py.startswith s "git@") eqn:H1.
    { intros Hfix. destruct (Hplus _ (eq_sym Hfix)) as [H _]. congruence. }
    destruct (Py.startswith s "ssh://") eqn:H2.
    { intros Hfix. destruct (Hplus _ (eq_sym Hfix)) as (_ & H & _). congruence. }
    destruct (Py.startswith s "https://") eqn:H3.
    { intros Hfix. destruct (Hplus _ (eq_sym Hfix)) as (_ & _ & H). congruence. }
    intros _. repeat split; reflexivity.
  - intros (H1 & H2 & H3). unfold autocorrect_pip_url.
    rewrite H1, H2, H3. reflexivity.
Qed.

(** * The further statements at work on the examples *)

Lemma directive_without_target_raises_witness :
  fst (process_line sample_parse sample_decode sample_resolve
         (Str ("-rdeps.txt" +:+ nl)) [] [] [] "r" edge_world)
  = Raise IndexError.
Proof.
  erewrite directive_without_target_raises; reflexivity.
Defined.

Lemma directive_blank_target_ignored_witness :
  fst (process_line sample_parse sample_decode
         (resolve_dependencies sample_parse sample_scheme sample_decode 1)
         (Str ("-r  deps.txt" +:+ nl)) [] [] [] "r" edge_world)
  = Ok ([], []).
Proof.
  erewrite directive_blank_target_ignored; reflexivity.
Defined.

Lemma directive_forces_context_witness :
  fst (process_line sample_parse sample_decode
         (resolve_dependencies sample_parse sample_scheme sample_decode 3)
         (Str ("-c deps.txt" +:+ nl)) [] [] [] "r" edge_world)
  = fst (resolve_dependencies sample_parse sample_scheme sample_decode 3
           "deps.txt" [] [] [] "c" edge_world).
Proof.
  apply (directive_forces_context sample_parse sample_scheme sample_decode 3
           (Str ("-c deps.txt" +:+ nl)) ("-c deps.txt" +:+ nl) "-c"
           ("deps.txt" +:+ nl) []);
    reflexivity.
Defined.

Lemma directory_target_raises_witness :
  fst (resolve_dependencies sample_parse sample_scheme sample_decode 1
         "sources" [] [] [] "r" edge_world)
  = Raise IsADirectoryError.
Proof.
  erewrite directory_target_raises;
    [reflexivity | discriminate | reflexivity | reflexivity].
Defined.

Lemma remote_failure_is_fatal_witness :
  fst (resolve_dependencies sample_parse sample_scheme sample_decode 1
         "https://example.org/missing.txt" [] [] [] "c" edge_world)
  = Raise URLError.
Proof.
  erewrite remote_failure_is_fatal;
    [reflexivity | discriminate | reflexivity | discriminate | reflexivity].
Defined.



Lemma remote_document_resolves_witness :
  exists w',
    resolve_dependencies sample_parse sample_scheme sample_decode 1
      "https://example.org/constraints.txt" ["pkg"] [] [] "c" edge_world
    = (Ok ([], constraints_block "https://example.org/constraints.txt"
                 [disabled ("pkg==1.0" +:+ String CR nl) ["source"];
                  "other==2.0" +:+ nl]), w')
    /\ same_sources w' edge_world.
Proof.
  apply (remote_document_resolves sample_parse sample_scheme sample_decode 0
           "https://example.org/constraints.txt" "https"
           ("pkg==1.0" +:+ String CR nl +:+ "other==2.0" +:+ nl)
           ["pkg==1.0" +:+ String CR nl; "other==2.0" +:+ nl]
           ["pkg"] [] [] "c" edge_world);
    [discriminate | reflexivity | discriminate | reflexivity
    | repeat constructor | repeat constructor].
Defined.

Lemma other_variety_is_not_delimited_witness :
  fst (resolve_dependencies sample_parse sample_scheme sample_decode 1
         "requirements.txt" ["pkg"] ["pkg"] [] "constraints" sample_world)
  = Ok ([disabled ("pkg==1.0" +:+ nl) ["source"]], []).
Proof.
  apply (other_variety_is_not_delimited sample_parse sample_scheme
           sample_decode 0 "requirements.txt" ("pkg==1.0" +:+ nl)
           ["pkg"] ["pkg"] [] "constraints" sample_world);
    [discriminate | discriminate | discriminate | reflexivity | reflexivity
    | repeat constructor].
Defined.

Lemma read_result_witness :
  wrapped requirements_block "constraints.txt"
    (requirements_block "constraints.txt"
       (requirements_block "deps.txt" ["other==2.0" +:+ nl]
        ++ [disabled ("pkg==1.0" +:+ nl) ["source"]])).
Proof.
  eapply (read_result sample_parse sample_scheme sample_decode 3 sample_state
            {| configuration := configuration sample_state;
               requirements :=
                 requirements_block "constraints.txt"
                   (requirements_block "deps.txt" ["other==2.0" +:+ nl]
                    ++ [disabled ("pkg==1.0" +:+ nl) ["source"]]);
               constraints := [] |}
            "c" sample_world).
  vm_compute. reflexivity.
Defined.

Lemma requirements_file_written_witness :
  files (snd (write sample_state sample_world)) !! "requirements-mxdev.txt"
  = Some (File (rule +:+ "# mxdev combined constraints" +:+ nl
                +:+ "-c constraints-mxdev.txt" +:+ nl +:+ nl
                +:+ nl +:+ rule
                +:+ "# mxdev development sources" +:+ nl
                +:+ "-e ./sources/pkg[test] --install-option="
                +:+ String DQUOTE "--pre" +:+ String DQUOTE nl
                +:+ nl)).
Proof.
  apply (requirements_file_written sample_state sample_world
           (snd (write sample_state sample_world))).
  vm_compute. reflexivity.
Defined.

Lemma write_fails_before_writing_witness :
  write sample_state (World {["constraints-mxdev.txt" := Dir]} ∅ [])
  = (Raise IsADirectoryError,
     logged (World {["constraints-mxdev.txt" := Dir]} ∅ [])
       (write_banner sample_state)).
Proof.
  apply (write_fails_before_writing sample_state
           (World {["constraints-mxdev.txt" := Dir]} ∅ [])).
  reflexivity.
Defined.


Lemma write_touches_outputs_only_witness :
  files (snd (write sample_state sample_world)) !! "deps.txt"
  = Some (File ("other==2.0" +:+ nl))
  /\ net (snd (write sample_state sample_world)) = ∅.
Proof.
  apply (write_touches_outputs_only sample_state sample_world
           (snd (write sample_state sample_world))
           (fst (write sample_state sample_world)) "deps.txt");
    [destruct (write sample_state sample_world); reflexivity
    | discriminate | discriminate].
Defined.


Lemma autocorrect_scp_style_witness :
  exists t,
    autocorrect_pip_url "git@github.com:bluedynamics/mxdev.git@rev:1"
    = "git+ssh://" +:+ t
    /\ (forall i,
          String.get i t
          = option_map (fun c => if Ascii.eqb c ":" then "/"%char else c)
              (String.get i "git@github.com:bluedynamics/mxdev.git@rev:1"))
    /\ String.length t = 43
    /\ Py.startswith t "git@" = true
    /\ has_char ":" t = false.
Proof.
  apply (autocorrect_scp_style "git@github.com:bluedynamics/mxdev.git@rev:1").
  reflexivity.
Defined.

Lemma unexaminable_target_raises_witness :
  fst (resolve_dependencies sample_parse sample_scheme sample_decode 1
         (Py.mul "a" 300) [] [] [] "r" edge_world)
  = Raise OSError.
Proof.
  erewrite unexaminable_target_raises;
    [reflexivity | discriminate | reflexivity | reflexivity].
Defined.
